(** * Programmatic tool calling: the [code_execution] tool wrapper

    A shallow embedding of [src/lib/tool-wrapper.ts] (class
    [ProgrammaticToolCaller]) together with the part of the JavaScript
    run-time library its [execute] callback relies on: truthiness,
    [typeof], [String(...)], [Object.entries], [Object.keys],
    [JSON.stringify], [JSON.parse], [Promise.race] against a timer, and
    [try]/[catch]/[finally].

    The two collaborators the wrapper imports, [./sandbox] and
    [./mcp-bridge], are not among the sources; they are modelled from the
    specification, each under a comment that says so.

    Around the wrapper the development also covers its documentation and
    description of the tools, the tool names and stream frames of the
    chat route, the read loop of the chat interface that decodes these
    frames, and the tool [validateARMTemplate]. *)

From Stdlib Require Import ZArith String List.
From Stdlib Require Import Floats.SpecFloat.
From stdpp Require Import base list strings gmap pretty.

Open Scope string_scope.
Set Warnings "-register-all".

(** ** JavaScript values *)

Module JS.

(** An [Error] object, as far as the wrapper looks at it: it only ever
    reads [.message]. *)
Record JsError : Type := Error_ { errorName : string; message : string }.

Definition Error (msg : string) : JsError := Error_ "Error" msg.
Definition TypeError (msg : string) : JsError := Error_ "TypeError" msg.
Definition SyntaxError (msg : string) : JsError := Error_ "SyntaxError" msg.

(** Values are plain data trees.  Numbers are IEEE-754 doubles
    ([spec_float]).  An object is its list of own enumerable string-keyed
    properties in enumeration order, together with a flag telling whether
    its prototype is [Object.prototype] ([true]) or [null] ([false]).
    Accessor properties, [toJSON] methods, proxies and cyclic object graphs
    are outside this model. *)
Inductive JsValue : Type :=
| JUndefined
| JNull
| JBool (b : bool)
| JNum (x : spec_float)
| JStr (s : string)
| JBigInt (z : Z)
| JSymbol (description : string)
| JFunction (source : string)
| JArr (elems : list JsValue)
| JObj (ordinary : bool) (props : list (string * JsValue)).

(** Object literal [{ k1: v1, ... }]. *)
Definition obj (props : list (string * JsValue)) : JsValue := JObj true props.

(** [typeof v] *)
Definition typeof (v : JsValue) : string :=
  match v with
  | JUndefined => "undefined"
  | JNull => "object"
  | JBool _ => "boolean"
  | JNum _ => "number"
  | JStr _ => "string"
  | JBigInt _ => "bigint"
  | JSymbol _ => "symbol"
  | JFunction _ => "function"
  | JArr _ => "object"
  | JObj _ _ => "object"
  end.

(** [ToBoolean]: the falsy values are [undefined], [null], [false], [+0],
    [-0], [NaN], the empty string and [0n]. *)
Definition ToBoolean (v : JsValue) : bool :=
  match v with
  | JUndefined | JNull => false
  | JBool b => b
  | JNum (S754_zero _) | JNum S754_nan => false
  | JNum _ => true
  | JStr s => negb (String.eqb s "")
  | JBigInt z => negb (Z.eqb z 0)
  | JSymbol _ | JFunction _ | JArr _ | JObj _ _ => true
  end.

(** [v === undefined || v === null] *)
Definition is_nullish (v : JsValue) : bool :=
  match v with
  | JUndefined | JNull => true
  | _ => false
  end.

(** [typeof v === 'object' && v !== null] *)
Definition is_object (v : JsValue) : bool :=
  String.eqb (typeof v) "object" && negb (is_nullish v).

(** [a || b] on values. *)
Definition or_else (a b : JsValue) : JsValue := if ToBoolean a then a else b.

(** ** Completions: a computation returns normally or throws *)

Inductive Completion (A : Type) : Type :=
| Normal (a : A)
| Throw (e : JsError).
Arguments Normal {A} a.
Arguments Throw {A} e.

Definition cbind {A B} (c : Completion A) (k : A -> Completion B) : Completion B :=
  match c with
  | Normal a => k a
  | Throw e => Throw e
  end.

(** [try { body } catch (e) { handler }] *)
Definition try_catch {A} (body : Completion A) (handler : JsError -> Completion A)
  : Completion A :=
  match body with
  | Normal a => Normal a
  | Throw e => handler e
  end.

Declare Scope completion_scope.
Delimit Scope completion_scope with completion.
Notation "x <- c ;; k" := (cbind c (fun x => k))
  (at level 100, c at next level, right associativity) : completion_scope.
Local Open Scope completion_scope.

(** ** JSON *)

(** A JSON text, abstracted to its parse tree.  A number token is
    represented by the double it denotes: [JSON.stringify] prints the
    shortest decimal that reads back as the same double. *)
Inductive Json : Type :=
| JsonNull
| JsonBool (b : bool)
| JsonNum (x : spec_float)
| JsonStr (s : string)
| JsonArr (elems : list Json)
| JsonObj (members : list (string * Json)).

(** [SerializeJSONProperty]: [None] stands for the result [undefined]
    (nothing is written for the value).  A BigInt makes it throw. *)
Fixpoint SerializeJSONProperty (v : JsValue) : Completion (option Json) :=
  match v with
  | JUndefined | JSymbol _ | JFunction _ => Normal None
  | JNull => Normal (Some JsonNull)
  | JBool b => Normal (Some (JsonBool b))
  | JNum (S754_zero _) => Normal (Some (JsonNum (S754_zero false)))
  | JNum (S754_finite s m e) => Normal (Some (JsonNum (S754_finite s m e)))
  | JNum _ => Normal (Some JsonNull)
  | JStr s => Normal (Some (JsonStr s))
  | JBigInt _ => Throw (TypeError "Do not know how to serialize a BigInt")
  | JArr elems =>
      js <- (fix elements (l : list JsValue) : Completion (list Json) :=
               match l with
               | [] => Normal []
               | e :: rest =>
                   j <- SerializeJSONProperty e ;;
                   js <- elements rest ;;
                   Normal (default JsonNull j :: js)
               end) elems ;;
      Normal (Some (JsonArr js))
  | JObj _ props =>
      ms <- (fix members (l : list (string * JsValue))
               : Completion (list (string * Json)) :=
               match l with
               | [] => Normal []
               | (k, e) :: rest =>
                   j <- SerializeJSONProperty e ;;
                   ms <- members rest ;;
                   Normal (match j with
                           | Some j' => (k, j') :: ms
                           | None => ms
                           end)
               end) props ;;
      Normal (Some (JsonObj ms))
  end.

(** [JSON.stringify(v)]: a JSON text, or [undefined] ([None]). *)
Definition JSON_stringify (v : JsValue) : Completion (option Json) :=
  SerializeJSONProperty v.

(** The value a JSON text denotes. *)
Fixpoint revive (j : Json) : JsValue :=
  match j with
  | JsonNull => JNull
  | JsonBool b => JBool b
  | JsonNum x => JNum x
  | JsonStr s => JStr s
  | JsonArr elems => JArr (map revive elems)
  | JsonObj members =>
      obj ((fix fields (l : list (string * Json)) : list (string * JsValue) :=
              match l with
              | [] => []
              | (k, j') :: rest => (k, revive j') :: fields rest
              end) members)
  end.

(** [JSON.parse(text)].  The argument [undefined] is first converted to the
    string ["undefined"], which is not a JSON text. *)
Definition JSON_parse (text : option Json) : Completion JsValue :=
  match text with
  | Some j => Normal (revive j)
  | None => Throw (SyntaxError "Unexpected token u in JSON at position 0")
  end.

(** [JSON.parse(JSON.stringify(v))], the structural copy. *)
Definition JSON_roundtrip (v : JsValue) : Completion JsValue :=
  text <- JSON_stringify v ;; JSON_parse text.

(** [JSON.stringify(v)] neither throws nor returns [undefined]. *)
Definition stringifies (v : JsValue) : Prop :=
  exists text, JSON_stringify v = Normal (Some text).

(** Serializing [v] as a member of an array or object does not throw. *)
Definition serializes (v : JsValue) : Prop :=
  exists j, SerializeJSONProperty v = Normal j.

(** An object all of whose properties serialize. *)
Definition plain_object (o : JsValue) : Prop :=
  exists ordinary props,
    o = JObj ordinary props /\ Forall (fun kv => serializes kv.2) props.

(** ** Conversion to string *)

(** The own property [key] of an object, if it has one. *)
Fixpoint lookup_property (props : list (string * JsValue)) (key : string)
  : option JsValue :=
  match props with
  | [] => None
  | (k, w) :: rest => if String.eqb k key then Some w else lookup_property rest key
  end.

(** The JavaScript engine.  [Number::toString] (radix 10) prints the
    shortest decimal that identifies a double; its digit generation is
    left to the engine.  So is what a function does when it is called as
    a method without arguments: [Function_call source this] is the
    completion of calling the function whose source text is [source] on
    the object [this]. *)
Class Engine : Type := {
  Number_toString : spec_float -> string;
  Function_call : string -> JsValue -> Completion JsValue
}.

(** Neither an object nor a function. *)
Definition is_primitive (v : JsValue) : bool :=
  match v with
  | JArr _ | JObj _ _ | JFunction _ => false
  | _ => true
  end.

Section ToString.
Context {engine : Engine}.

(** [ToString] of a value that is not an object; a symbol is refused. *)
Definition ToString_primitive (v : JsValue) : Completion string :=
  match v with
  | JUndefined => Normal "undefined"
  | JNull => Normal "null"
  | JBool true => Normal "true"
  | JBool false => Normal "false"
  | JNum x => Normal (Number_toString x)
  | JStr s => Normal s
  | JBigInt z => Normal (pretty z)
  | _ => Throw (TypeError "Cannot convert a Symbol value to a string")
  end.

(** [ToString] of the object [o] with the own properties [props]
    ([OrdinaryToPrimitive] with hint string).  The method [toString] is
    tried first, then [valueOf]; a method is the own property of that
    name or else the one inherited from [Object.prototype], when the
    object has that prototype ([ordinary]).  The inherited [toString]
    answers ["[object Object]"], the inherited [valueOf] answers the
    object itself.  A property that is not a function is passed over, and
    so is a method whose answer is an object; when no method is left the
    conversion fails. *)
Definition OrdinaryToString (o : JsValue) (ordinary : bool)
    (props : list (string * JsValue)) : Completion string :=
  let no_primitive := TypeError "Cannot convert object to primitive value" in
  let by_valueOf :=
    match lookup_property props "valueOf" with
    | Some (JFunction source) =>
        r <- Function_call source o ;;
        if is_primitive r then ToString_primitive r else Throw no_primitive
    | _ => Throw no_primitive
    end in
  match lookup_property props "toString" with
  | Some (JFunction source) =>
      r <- Function_call source o ;;
      if is_primitive r then ToString_primitive r else by_valueOf
  | Some _ => by_valueOf
  | None => if ordinary then Normal "[object Object]" else by_valueOf
  end.

(** The abstract operation [ToString].  An array is joined with commas
    ([Array.prototype.join]; [undefined] and [null] elements print as the
    empty string), a function prints as its source text, and an object
    is converted by its methods. *)
Fixpoint ToString (v : JsValue) : Completion string :=
  match v with
  | JFunction source => Normal source
  | JArr elems =>
      (fix join (l : list JsValue) : Completion string :=
         match l with
         | [] => Normal ""
         | e :: rest =>
             s <- (if is_nullish e then Normal "" else ToString e) ;;
             match rest with
             | [] => Normal s
             | _ :: _ => r <- join rest ;; Normal (s ++ "," ++ r)
             end
         end) elems
  | JObj ordinary props => OrdinaryToString v ordinary props
  | _ => ToString_primitive v
  end.

(** [String(v)]: as [ToString], except that a symbol is described. *)
Definition String_ (v : JsValue) : Completion string :=
  match v with
  | JSymbol description => Normal ("Symbol(" ++ description ++ ")")
  | _ => ToString v
  end.

End ToString.

(** ** Objects *)

(** The entries [("0", e0), ("1", e1), ...] of an array, from index [i]. *)
Fixpoint indexed (i : nat) (elems : list JsValue) : list (string * JsValue) :=
  match elems with
  | [] => []
  | e :: rest => (pretty i, e) :: indexed (S i) rest
  end.

(** The characters of a string as one-character string values. *)
Fixpoint characters (s : string) : list JsValue :=
  match s with
  | EmptyString => []
  | String c rest => JStr (String c EmptyString) :: characters rest
  end.

(** [Object.entries(v)] *)
Definition Object_entries (v : JsValue) : Completion (list (string * JsValue)) :=
  match v with
  | JUndefined | JNull =>
      Throw (TypeError "Cannot convert undefined or null to object")
  | JArr elems => Normal (indexed 0 elems)
  | JObj _ props => Normal props
  | JStr s => Normal (indexed 0 (characters s))
  | _ => Normal []
  end.

(** [Object.keys(v)] *)
Definition Object_keys (v : JsValue) : Completion (list string) :=
  entries <- Object_entries v ;; Normal (map fst entries).

(** Replace the value stored under [key], keeping its position. *)
Fixpoint overwrite (key : string) (v : JsValue) (props : list (string * JsValue))
  : list (string * JsValue) :=
  match props with
  | [] => []
  | (k, w) :: rest =>
      if String.eqb k key then (k, v) :: rest else (k, w) :: overwrite key v rest
  end.

Definition has_property (props : list (string * JsValue)) (key : string) : bool :=
  existsb (fun kv => String.eqb (fst kv) key) props.

(** [o[key] = v] on an object: an existing own property is overwritten in
    place, a new one is added last.  The key ["__proto__"] is not stored:
    it reaches the accessor inherited from [Object.prototype], which
    creates no own property; it replaces the prototype when [v] is [null]
    or an object (only the loss of the prototype is visible here) and
    does nothing for any other [v].  An object without prototype has no
    such accessor. *)
Definition set_property (o : JsValue) (key : string) (v : JsValue) : JsValue :=
  match o with
  | JObj ordinary props =>
      if ordinary && String.eqb key "__proto__" then
        match v with
        | JNull => JObj false props
        | _ => o
        end
      else if has_property props key then JObj ordinary (overwrite key v props)
      else JObj ordinary (props ++ [(key, v)])
  | _ => o
  end.

Definition get_property (o : JsValue) (key : string) : JsValue :=
  match o with
  | JObj _ props => default JUndefined (lookup_property props key)
  | _ => JUndefined
  end.

End JS.

(** ** The sandbox *)

Module Call.
Import JS.

(** Modelled from the spec: the record type of one traced capability call
    is declared in [./sandbox], which is not among the sources.  The spec
    gives the trace record as [{toolName, args, result|errorText,
    isBridged, startTime, durationMs}]; the fields below are the ones the
    wrapper reads, under the names it reads them by.  [result] is
    [undefined] for a call that has none, [error] is absent for a call
    that succeeded. *)
Record ToolCallRecord : Type := {
  toolName : string;
  args : JsValue;
  result : JsValue;
  error : option JsError;
  isMCP : bool;
  executionTimeMs : N
}.

End Call.

Module Sandbox.
Import JS.
Export Call(ToolCallRecord).

(** What a script run leaves behind while the wrapper waits for it: the
    calls it completes, in completion order, and the way its promise
    settles, if it does, with the elapsed time in milliseconds. *)
Inductive Settlement : Type :=
| Resolves (output : JsValue)
| Rejects (reason : JsError).

Record ScriptRun : Type := {
  calls : list ToolCallRecord;
  settles : option (N * Settlement)
}.

(** The four heuristic figures for a trace, and their description. *)
Record Heuristic : Type := {
  intermediate : nat;
  roundTrip : nat;
  overhead : nat;
  decisions : nat;
  explanation : string
}.

(** What the model leaves open: what a script does when it is evaluated
    against the registry, and the formula of the savings heuristic. *)
Class Model : Type := {
  runScript : string -> ScriptRun;
  heuristic : list ToolCallRecord -> Heuristic
}.

(** The methods the wrapper invokes on its sandbox, kept as a log next to
    the state, so that properties such as "reset was invoked" can be
    stated. *)
Inductive Invocation : Type :=
| InvExecute (code : string)
| InvGetComprehensiveTokenSavings
| InvReset.

(** Modelled from the spec: class [ToolOrchestrationSandbox] of
    [./sandbox] is not among the sources.  Per the spec the Evaluator
    keeps the trace of the current run as its mutable state. *)
Record ToolOrchestrationSandbox : Type := {
  trace : list ToolCallRecord;
  invocations : list Invocation
}.

(** ** Effects: sandbox state and exceptions *)

Definition Eff (A : Type) : Type :=
  ToolOrchestrationSandbox -> Completion A * ToolOrchestrationSandbox.

Definition ret {A} (a : A) : Eff A := fun sb => (Normal a, sb).

Definition throw {A} (e : JsError) : Eff A := fun sb => (Throw e, sb).

Definition bind {A B} (m : Eff A) (k : A -> Eff B) : Eff B :=
  fun sb =>
    match m sb with
    | (Normal a, sb') => k a sb'
    | (Throw e, sb') => (Throw e, sb')
    end.

Definition lift {A} (c : Completion A) : Eff A := fun sb => (c, sb).

(** [try { body } catch (e) { handler }] *)
Definition try_catch {A} (body : Eff A) (handler : JsError -> Eff A) : Eff A :=
  fun sb =>
    match body sb with
    | (Normal a, sb') => (Normal a, sb')
    | (Throw e, sb') => handler e sb'
    end.

(** [try { body } finally { finalizer }]: the finalizer runs on both
    exits; the completion of the body stands unless the finalizer itself
    throws. *)
Definition try_finally {A} (body : Eff A) (finalizer : Eff unit) : Eff A :=
  fun sb =>
    match body sb with
    | (c, sb') =>
        match finalizer sb' with
        | (Normal _, sb'') => (c, sb'')
        | (Throw e, sb'') => (Throw e, sb'')
        end
    end.

Declare Scope eff_scope.
Delimit Scope eff_scope with eff.
Notation "x <- c ;; k" := (bind c (fun x => k))
  (at level 100, c at next level, right associativity) : eff_scope.

(** ** Promises *)

(** A promise, seen from the moment it is created: it settles after [ms]
    milliseconds with a completion, or stays pending for ever. *)
Inductive Promise (A : Type) : Type :=
| Settles (ms : N) (c : Completion A)
| Pending.
Arguments Settles {A} ms c.
Arguments Pending {A}.

(** [await Promise.race([p, new Promise((_, reject) => setTimeout(() =>
    reject(e), ms))])]: the promise that settles first decides, and since
    the timer always fires the wait always ends.  The result is the time
    waited and the completion.  A promise settling in the very
    millisecond in which the timer fires is ordered after it here; the
    event loop decides that in reality, and no theorem below is about
    such a tie. *)
Definition await_race {A} (p : Promise A) (ms : N) (e : JsError)
  : N * Completion A :=
  match p with
  | Settles t c => if N.ltb t ms then (t, c) else (ms, Throw e)
  | Pending => (ms, Throw e)
  end.

(** The result of [sandbox.execute]. *)
Record ExecutionResult : Type := {
  output : JsValue;
  toolCalls : list ToolCallRecord
}.

Record TokenSavings : Type := {
  intermediateResultTokens : nat;
  roundTripContextTokens : nat;
  toolCallOverheadTokens : nat;
  llmDecisionTokens : nat;
  totalSaved : nat;
  breakdown : string
}.

Section Methods.
Context {model : Model}.

(** The trace once the calls of the script [code] are added to what the
    sandbox [sb] holds. *)
Definition recorded (code : string) (sb : ToolOrchestrationSandbox)
  : list ToolCallRecord :=
  trace sb ++ calls (runScript code).

(** Modelled from the spec: [execute(scriptText)] yields [{output,
    callTrace}]; every completed call is appended to the trace; an
    uncaught error of the script rejects the promise.  The call itself
    returns the promise at once. *)
Definition execute (code : string) : Eff (Promise ExecutionResult) :=
  fun sb =>
    let run := runScript code in
    let sb' := {| trace := recorded code sb;
                  invocations := invocations sb ++ [InvExecute code] |} in
    (Normal match settles run with
            | Some (ms, Resolves out) =>
                Settles ms (Normal {| output := out; toolCalls := trace sb' |})
            | Some (ms, Rejects e) => Settles ms (Throw e)
            | None => Pending
            end, sb').

(** Modelled from the spec: the Token-Savings Estimator is part of
    [./sandbox].  Per the spec the estimate has four components and a
    human-readable breakdown, the total is the sum of the four, and a
    trace without calls makes all components zero.  The formula itself is
    the [heuristic] of the model. *)
Definition estimate (tr : list ToolCallRecord) : TokenSavings :=
  let h := heuristic tr in
  let i := match tr with [] => 0 | _ :: _ => intermediate h end in
  let r := match tr with [] => 0 | _ :: _ => roundTrip h end in
  let o := match tr with [] => 0 | _ :: _ => overhead h end in
  let d := match tr with [] => 0 | _ :: _ => decisions h end in
  {| intermediateResultTokens := i;
     roundTripContextTokens := r;
     toolCallOverheadTokens := o;
     llmDecisionTokens := d;
     totalSaved := i + r + o + d;
     breakdown := explanation h |}.

(** Modelled from the spec: [getComprehensiveTokenSavings()] is the
    estimate for the trace the sandbox holds. *)
Definition getComprehensiveTokenSavings : Eff TokenSavings :=
  fun sb =>
    (Normal (estimate (trace sb)),
     {| trace := trace sb;
        invocations := invocations sb ++ [InvGetComprehensiveTokenSavings] |}).

(** Modelled from the spec: [reset()] clears the trace and the per-run
    counters. *)
Definition reset : Eff unit :=
  fun sb =>
    (Normal tt, {| trace := []; invocations := invocations sb ++ [InvReset] |}).

End Methods.

End Sandbox.

(** ** The MCP bridge *)

Module ToolDefinition.
Import JS.

(** [type ToolExecuteFunction = (...args: any[]) => any] *)
Definition ToolExecuteFunction : Type := list JsValue -> Completion JsValue.

(** [type ToolDefinition = Record<string, any>], as far as the wrapper
    looks into it.  [execute] is [None] when the property is absent or
    falsy.  A tool set [Record<string, ToolDefinition>] is given as the
    list of its entries, in the order [Object.entries] yields them; the
    property names of an object are distinct. *)
Record t : Type := {
  description : option string;
  execute : option ToolExecuteFunction
}.

End ToolDefinition.

(** [name.startsWith('mcp_')] *)
Definition is_mcp_name (name : string) : bool := String.prefix "mcp_" name.

Module MCPBridge.

(** Modelled from the spec: [./mcp-bridge] is not among the sources.  Per
    the spec the names of bridged capabilities are namespaced by a prefix
    to keep them apart from local names; the prefix is the ['mcp_'] the
    wrapper tests for.  The bridge holds the tools of the set that carry
    that prefix. *)
Record MCPToolBridge : Type := {
  bridged : list (string * ToolDefinition.t)
}.

(** Modelled from the spec: [createMCPBridge(tools)] returns a bridge for
    the namespaced tools of the set, or [null] when there is none. *)
Definition createMCPBridge (tools : list (string * ToolDefinition.t))
  : option MCPToolBridge :=
  match filter (fun entry => is_mcp_name entry.1) tools with
  | [] => None
  | mcp => Some {| bridged := mcp |}
  end.

(** Modelled from the spec: [getToolNames()] lists the names of the
    bridged tools. *)
Definition getToolNames (bridge : MCPToolBridge) : list string :=
  map fst (bridged bridge).

End MCPBridge.

(** ** The result of the [code_execution] tool *)

Module Entry.
Import JS.

(** One element of [metadata.sandboxToolCalls]. *)
Record t : Type := {
  toolName : string;
  args : JsValue;
  result : JsValue;
  error : option string;
  isMCP : bool;
  executionTimeMs : N
}.

End Entry.

Module Breakdown.

(** [metadata.tokenSavingsBreakdown] *)
Record t : Type := {
  intermediateResults : nat;
  roundTripContext : nat;
  toolCallOverhead : nat;
  llmDecisions : nat
}.

End Breakdown.

Module Metadata.

Record t : Type := {
  toolCallCount : nat;
  localToolCallCount : nat;
  mcpToolCallCount : nat;
  intermediateTokensSaved : nat;
  totalTokensSaved : nat;
  tokenSavingsBreakdown : Breakdown.t;
  savingsExplanation : string;
  toolsUsed : list string;
  mcpToolsUsed : list string;
  localToolsUsed : list string;
  executionTimeMs : N;
  sandboxToolCalls : list Entry.t
}.

End Metadata.

Module ToolOutput.
Import JS.

(** What [execute] returns: [{ result, metadata }]. *)
Record t : Type := {
  result : JsValue;
  metadata : Metadata.t
}.

End ToolOutput.

(** ** The tool wrapper: class [ProgrammaticToolCaller] *)

Module ProgrammaticToolCaller.
Import JS.
Import Sandbox.

Record t : Type := {
  sandbox : ToolOrchestrationSandbox;
  tools : list (string * ToolDefinition.t);
  toolRegistry : gmap string ToolDefinition.ToolExecuteFunction;
  mcpBridge : option MCPBridge.MCPToolBridge;
  mcpToolNames : list string;
  localToolNames : list string
}.

(** One turn of the constructor's loop over [Object.entries(tools)]: a
    tool with an [execute] function and a name outside the bridge
    namespace is put into the registry and its name is pushed. *)
Definition register
    (acc : gmap string ToolDefinition.ToolExecuteFunction * list string)
    (entry : string * ToolDefinition.t)
  : gmap string ToolDefinition.ToolExecuteFunction * list string :=
  match ToolDefinition.execute entry.2 with
  | Some f =>
      if negb (is_mcp_name entry.1)
      then (<[entry.1 := f]> acc.1, (acc.2 ++ [entry.1])%list)
      else acc
  | None => acc
  end.

(** The test the loop applies to an entry: [toolDef.execute] is there and
    the name is outside the bridge namespace. *)
Definition is_local_tool (entry : string * ToolDefinition.t) : bool :=
  match ToolDefinition.execute entry.2 with
  | Some _ => negb (is_mcp_name entry.1)
  | None => false
  end.

(** Modelled from the spec: a new [ToolOrchestrationSandbox] has an empty
    trace. *)
Definition new_sandbox : ToolOrchestrationSandbox :=
  {| trace := []; invocations := [] |}.

(** [constructor(tools, timeout = 30000)] *)
Definition constructor (tools : list (string * ToolDefinition.t)) (timeout : N) : t :=
  let mcpBridge := MCPBridge.createMCPBridge tools in
  let mcpToolNames :=
    match mcpBridge with
    | Some bridge => MCPBridge.getToolNames bridge
    | None => []
    end in
  let filled := fold_left register tools (∅, []) in
  {| sandbox := new_sandbox;
     tools := tools;
     toolRegistry := filled.1;
     mcpBridge := mcpBridge;
     mcpToolNames := mcpToolNames;
     localToolNames := filled.2 |}.

(** [getAllToolNames()] *)
Definition getAllToolNames (this : t) : list string :=
  localToolNames this ++ mcpToolNames this.

(** [[...new Set(names)]]: the names in the order of their first
    occurrence. *)
Definition Set_add (s : list string) (x : string) : list string :=
  if decide (x ∈ s) then s else (s ++ [x])%list.

Definition Set_spread (names : list string) : list string :=
  fold_left Set_add names [].

(** [for (const x of l) { s = body(s, x) }] where the body may throw. *)
Fixpoint for_of {A S : Type} (l : list A) (body : S -> A -> Completion S) (s : S)
  : Completion S :=
  match l with
  | [] => Normal s
  | x :: rest => (s' <- body s x ;; for_of rest body s')%completion
  end.

(** [!tc.error] *)
Definition succeeded (tc : ToolCallRecord) : bool :=
  match Call.error tc with
  | Some _ => false
  | None => true
  end.

(** The element of [allResults] built for one call. *)
Definition summaryEntry (tc : ToolCallRecord) : JsValue :=
  obj [("tool", JStr (Call.toolName tc));
       ("success", JBool (succeeded tc));
       ("result", Call.result tc)].

(** The output derived from the trace when the script returned nothing
    (the body of [if (output === undefined || output === null)]). *)
Definition extractFromToolCalls (toolCalls : list ToolCallRecord) : JsValue :=
  match last toolCalls with
  | Some lastCall =>
      let allResults := map summaryEntry toolCalls in
      if Nat.eqb (length toolCalls) 1
      then or_else (Call.result lastCall)
             (obj [("success", JBool (succeeded lastCall));
                   ("message", JStr "Tool executed")])
      else obj [("message",
                  JStr ("Executed " ++ pretty (length toolCalls) ++ " tool calls"));
                ("results", JArr allResults);
                ("lastResult", Call.result lastCall)]
  | None =>
      obj [("message", JStr "Code executed but returned no result");
           ("success", JBool true)]
  end.

Section Execute.
Context {engine : Engine} {model : Model}.

(** What the salvaging loop stores for a property value: its structural
    copy, or [String(value)] when the copy fails (the inner
    [try]/[catch]). *)
Definition salvaged (value : JsValue) : Completion JsValue :=
  JS.try_catch (JSON_roundtrip value)
    (fun _ => s <- String_ value ;; Normal (JStr s))%completion.

(** One turn of the loop that salvages the properties of an output that
    could not be copied as a whole. *)
Definition salvage (safeOutput : JsValue) (entry : string * JsValue)
  : Completion JsValue :=
  (v <- salvaged entry.2 ;; Normal (set_property safeOutput entry.1 v))%completion.

(** The statement "Ensure output is serializable and meaningful": the
    value assigned to [serializableOutput], or the error that leaves the
    statement. *)
Definition serializeOutput (output : JsValue) (toolCalls : list ToolCallRecord)
  : Completion JsValue :=
  JS.try_catch
    (if is_nullish output
     then Normal (extractFromToolCalls toolCalls)
     else JSON_roundtrip output)
    (fun serializeError =>
       if is_object output
       then
         JS.try_catch
           (entries <- Object_entries output ;;
            for_of entries salvage (obj []))
           (fun _ =>
              keys <- Object_keys output ;;
              Normal (obj [("message", JStr "Output contained non-serializable data");
                           ("type", JStr (typeof output));
                           ("keys", JArr (map JStr keys))]))
       else
         s <- String_ output ;;
         Normal (obj [("value", JStr s); ("type", JStr (typeof output))]))%completion.

(** An element of [sandboxToolCalls]. *)
Definition toEntry (c : ToolCallRecord) : Entry.t :=
  {| Entry.toolName := Call.toolName c;
     Entry.args := Call.args c;
     Entry.result := Call.result c;
     Entry.error := option_map message (Call.error c);
     Entry.isMCP := Call.isMCP c;
     Entry.executionTimeMs := Call.executionTimeMs c |}.

(** The [metadata] object of the value returned.  [mcpCalls] and
    [localCalls] are the two filters the callback computes right after
    the script has finished. *)
Definition buildMetadata (toolCalls : list ToolCallRecord)
    (tokenSavings : TokenSavings) (executionTime : N) : Metadata.t :=
  let mcpCalls := filter (fun tc => Call.isMCP tc) toolCalls in
  let localCalls := filter (fun tc => ¬ Call.isMCP tc) toolCalls in
  {| Metadata.toolCallCount := length toolCalls;
     Metadata.localToolCallCount := length localCalls;
     Metadata.mcpToolCallCount := length mcpCalls;
     Metadata.intermediateTokensSaved := intermediateResultTokens tokenSavings;
     Metadata.totalTokensSaved := totalSaved tokenSavings;
     Metadata.tokenSavingsBreakdown :=
       {| Breakdown.intermediateResults := intermediateResultTokens tokenSavings;
          Breakdown.roundTripContext := roundTripContextTokens tokenSavings;
          Breakdown.toolCallOverhead := toolCallOverheadTokens tokenSavings;
          Breakdown.llmDecisions := llmDecisionTokens tokenSavings |};
     Metadata.savingsExplanation := breakdown tokenSavings;
     Metadata.toolsUsed := Set_spread (map Call.toolName toolCalls);
     Metadata.mcpToolsUsed := Set_spread (map Call.toolName mcpCalls);
     Metadata.localToolsUsed := Set_spread (map Call.toolName localCalls);
     Metadata.executionTimeMs := executionTime;
     Metadata.sandboxToolCalls := map toEntry toolCalls |}.

(** The [execute] callback of the tool made by
    [createCodeExecutionTool()]. *)
Definition execute (code : string) : Eff ToolOutput.t :=
  try_finally
    (try_catch
       (running <- Sandbox.execute code ;;
        let raced :=
          await_race running 25000%N
            (Error "Code execution timeout after 25 seconds") in
        let executionTime := raced.1 in
        settled <- lift raced.2 ;;
        let output := Sandbox.output settled in
        let toolCalls := Sandbox.toolCalls settled in
        tokenSavings <- getComprehensiveTokenSavings ;;
        serializableOutput <- lift (serializeOutput output toolCalls) ;;
        ret {| ToolOutput.result := serializableOutput;
               ToolOutput.metadata :=
                 buildMetadata toolCalls tokenSavings executionTime |})%eff
       (fun error =>
          throw (Error ("Code execution failed: " ++ message error))))
    reset.

(** The script's promise is still pending when the timer fires. *)
Definition exceeds_budget (code : string) : Prop :=
  match settles (runScript code) with
  | Some (ms, _) => (25000 < ms)%N
  | None => True
  end.

End Execute.

(** A sandbox that has been reset, with [log] added to the record of what
    was invoked on it. *)
Definition after_call (sb : ToolOrchestrationSandbox) (log : list Invocation)
  : ToolOrchestrationSandbox :=
  {| trace := []; invocations := invocations sb ++ log |}.

End ProgrammaticToolCaller.

(** ** More of the run-time library *)

Module Builtins.
Import JS.
Local Open Scope completion_scope.

(** [s.includes(sub)] on strings. *)
Fixpoint String_includes (sub s : string) : bool :=
  String.prefix sub s ||
  match s with
  | EmptyString => false
  | String _ rest => String_includes sub rest
  end.

(** The error of reading a property of [undefined] or [null]. *)
Definition cannot_read (v : JsValue) (name : string) : JsError :=
  TypeError ("Cannot read properties of " ++
             match v with JNull => "null" | _ => "undefined" end ++
             " (reading '" ++ name ++ "')").

(** [v.name] for a name that is not a member of a built-in prototype
    ([length], the methods): the own property of an object, the element
    of an array or the character of a string when the name is an index,
    and [undefined] otherwise.  Reading a property of [undefined] or
    [null] throws. *)
Definition member (v : JsValue) (name : string) : Completion JsValue :=
  match v with
  | JUndefined | JNull => Throw (cannot_read v name)
  | JObj _ props => Normal (default JUndefined (lookup_property props name))
  | JArr elems => Normal (default JUndefined (lookup_property (indexed 0 elems) name))
  | JStr s =>
      Normal (default JUndefined (lookup_property (indexed 0 (characters s)) name))
  | _ => Normal JUndefined
  end.

(** [v === 'text'] *)
Definition is_string (v : JsValue) (text : string) : bool :=
  match v with
  | JStr s => String.eqb s text
  | _ => false
  end.

(** [v.includes(key)] for a string [key], where [v] is data (it holds no
    function): an array is searched for the element [key], a string for
    the substring [key], and any other value has no callable [includes]. *)
Definition call_includes (v : JsValue) (key : string) : Completion bool :=
  match v with
  | JArr elems => Normal (existsb (fun e => is_string e key) elems)
  | JStr s => Normal (String_includes key s)
  | JUndefined | JNull => Throw (cannot_read v "includes")
  | _ => Throw (TypeError "includes is not a function")
  end.

(** The string ['\n']. *)
Definition newline : string := String (Ascii.ascii_of_nat 10) EmptyString.

(** [l.map(f)] where [f] may throw. *)
Fixpoint Array_map {A B : Type} (f : A -> Completion B) (l : list A)
  : Completion (list B) :=
  match l with
  | [] => Normal []
  | x :: rest => y <- f x ;; ys <- Array_map f rest ;; Normal (y :: ys)
  end.

End Builtins.

(** ** zod schemas *)

Module Zod.

(** A zod schema object, as far as [generateToolDocumentation] looks into
    it: [schema._def.shape()] yields the fields of an object schema, and
    a field may carry [_def.description].  [shape] is [None] when
    [_def.shape] is not a function. *)
Record FieldDef : Type := { description : option string }.

Record Field : Type := { field_def : option FieldDef }.

Record Def : Type := { shape : option (list (string * option Field)) }.

Record Schema : Type := { _def : option Def }.

End Zod.

(** ** Tool documentation *)

Module ToolSchema.
Import JS.

(** A tool definition as [generateToolDocumentation] looks at it: besides
    the description it reads [parameters] (the JSON Schema document of an
    MCP tool: JSON data, [None] when absent) and [inputSchema] (the zod
    schema of a local tool). *)
Record t : Type := {
  definition : ToolDefinition.t;
  parameters : option Json;
  inputSchema : option Zod.Schema
}.

End ToolSchema.

Module Documentation.
Import JS.
Import Builtins.
Local Open Scope completion_scope.

Section Generate.
Context {engine : Engine}.

(** [`${v}`] *)
Definition interpolate (v : JsValue) : Completion string := ToString v.

(** [v.type || 'any'] *)
Definition type_or_any (v : JsValue) : Completion JsValue :=
  t <- member v "type" ;; Normal (or_else t (JStr "any")).

(** [Object.entries(properties).map(([k, v]) => `${k}: ${v.type ||
    'any'}`).join(', ')] *)
Definition nestedProps (properties : JsValue) : Completion string :=
  entries <- Object_entries properties ;;
  items <- Array_map
             (fun kv : string * JsValue =>
                t <- type_or_any kv.2 ;;
                s <- interpolate t ;;
                Normal (kv.1 ++ ": " ++ s))
             entries ;;
  Normal (String.concat ", " items).

(** [params.required?.includes(key) ? ' (required)' : ''] *)
Definition requiredMark (params : JsValue) (key : string) : Completion string :=
  required <- member params "required" ;;
  if is_nullish required then Normal ""
  else
    listed <- call_includes required key ;;
    Normal (if listed then " (required)" else "").

(** The line for one property of a JSON Schema (the callback given to
    [map] in "Method 1"). *)
Definition paramDoc (params : JsValue) (entry : string * JsValue)
  : Completion string :=
  let key := entry.1 in
  let prop := entry.2 in
  t <- type_or_any prop ;;
  d <- member prop "description" ;;
  let desc := or_else d (JStr "") in
  required <- requiredMark params key ;;
  items <- member prop "items" ;;
  if is_string t "array" && ToBoolean items then
    itemsType <- member items "type" ;;
    itemsProperties <- member items "properties" ;;
    if is_string itemsType "object" && ToBoolean itemsProperties then
      itemProps <- nestedProps itemsProperties ;;
      descText <- interpolate desc ;;
      Normal ("  - " ++ key ++ ": array of { " ++ itemProps ++ " }" ++ required
              ++ " - " ++ descText)
    else
      itemsText <- interpolate (or_else itemsType (JStr "any")) ;;
      descText <- interpolate desc ;;
      Normal ("  - " ++ key ++ ": array of " ++ itemsText ++ required
              ++ " - " ++ descText)
  else
    properties <- member prop "properties" ;;
    if is_string t "object" && ToBoolean properties then
      objProps <- nestedProps properties ;;
      descText <- interpolate desc ;;
      Normal ("  - " ++ key ++ ": { " ++ objProps ++ " }" ++ required
              ++ " - " ++ descText)
    else
      typeText <- interpolate t ;;
      descText <- interpolate desc ;;
      Normal ("  - " ++ key ++ ": " ++ typeText ++ required ++ " - " ++ descText).

(** The body of the [try] of "Method 1": the block pushed for a tool with
    [parameters], if any. *)
Definition schemaBlock (params : JsValue) : Completion (option string) :=
  properties <- member params "properties" ;;
  if ToBoolean properties then
    entries <- Object_entries properties ;;
    paramDocs <- Array_map (paramDoc params) entries ;;
    Normal (Some (String.concat newline paramDocs))
  else Normal None.

(** [val?._def?.description || ''] *)
Definition fieldDescription (val : option Zod.Field) : string :=
  match val with
  | Some field =>
      match Zod.field_def field with
      | Some def => default "" (Zod.description def)
      | None => ""
      end
  | None => ""
  end.

(** The body of the [try] of "Method 2": the block pushed for a tool with
    a zod [inputSchema], if any. *)
Definition zodBlock (schema : Zod.Schema) : Completion (option string) :=
  match Zod._def schema with
  | Some def =>
      match Zod.shape def with
      | Some shape =>
          Normal (Some (String.concat newline
                          (map (fun kv : string * option Zod.Field =>
                                  "  - " ++ kv.1 ++ ": " ++ fieldDescription kv.2)
                               shape)))
      | None => Normal None
      end
  | None => Normal None
  end.

(** The line pushed for every tool: [`${name}: ${description || 'No
    description'}`]. *)
Definition toolHeader (entry : string * ToolSchema.t) : string :=
  entry.1 ++ ": " ++
  match ToolDefinition.description (ToolSchema.definition entry.2) with
  | Some text => if String.eqb text "" then "No description" else text
  | None => "No description"
  end.

(** The block of parameters pushed for a tool, if any: "Method 1" when
    [parameters] is truthy, else "Method 2" when there is an
    [inputSchema].  An error while reading the schema is caught and
    nothing is pushed. *)
Definition toolBlock (toolDef : ToolSchema.t) : option string :=
  let fromZod :=
    match ToolSchema.inputSchema toolDef with
    | Some schema => JS.try_catch (zodBlock schema) (fun _ => Normal None)
    | None => Normal None
    end in
  let block :=
    match ToolSchema.parameters toolDef with
    | Some params =>
        if ToBoolean (revive params)
        then JS.try_catch (schemaBlock (revive params)) (fun _ => Normal None)
        else fromZod
    | None => fromZod
    end in
  match block with
  | Normal (Some text) => Some text
  | _ => None
  end.

(** What one turn of the loop pushes onto [docs]. *)
Definition toolDocs (entry : string * ToolSchema.t) : list string :=
  toolHeader entry ::
  match toolBlock entry.2 with
  | Some text => [text]
  | None => []
  end.

(** The logging of the turn, which stands outside the [try] blocks: for
    a tool whose name starts with ['mcp_'], while no entry of [docs] holds
    ['[DEBUG]'], truthy [parameters] are printed with
    [JSON.stringify(parameters, null, 2).slice(0, 500)], which throws when
    [JSON.stringify] throws or returns [undefined]. *)
Definition debugLog (docs : list string) (entry : string * ToolSchema.t)
  : Completion unit :=
  if is_mcp_name entry.1 && negb (existsb (String_includes "[DEBUG]") docs) then
    match ToolSchema.parameters entry.2 with
    | Some params =>
        if ToBoolean (revive params) then
          text <- JSON_stringify (revive params) ;;
          match text with
          | Some _ => Normal tt
          | None => Throw (cannot_read JUndefined "slice")
          end
        else Normal tt
    | None => Normal tt
    end
  else Normal tt.

(** One turn of the loop: the line of the tool is pushed, the tool is
    logged, the block of its parameters is pushed. *)
Definition turn (docs : list string) (entry : string * ToolSchema.t)
  : Completion (list string) :=
  _ <- debugLog (docs ++ [toolHeader entry])%list entry ;;
  Normal (docs ++ toolDocs entry)%list.

(** The array [docs] at the end of the loop. *)
Definition documentationBlocks (tools : list (string * ToolSchema.t))
  : Completion (list string) :=
  ProgrammaticToolCaller.for_of tools turn [].

(** [generateToolDocumentation()] *)
Definition generateToolDocumentation (tools : list (string * ToolSchema.t))
  : Completion string :=
  docs <- documentationBlocks tools ;;
  Normal (String.concat (newline ++ newline) docs).

End Generate.

End Documentation.

(** ** The enhanced tool set *)

Module CodeExecutionTool.
Import Sandbox.

(** The object made by [tool({ description, inputSchema, execute })]. *)
Record t : Type := {
  description : string;
  inputSchema : Zod.Schema;
  execute : string -> Eff ToolOutput.t
}.

End CodeExecutionTool.

Module Enhanced.
Import JS.
Import Sandbox.
Import Builtins.
Import ProgrammaticToolCaller.

(** [names.join(', ') || 'none'] *)
Definition joinOrNone (names : list string) : string :=
  let joined := String.concat ", " names in
  if String.eqb joined "" then "none" else joined.

(** The description of the [code_execution] tool: the template literal,
    written line by line. *)
Definition codeExecutionDescription (this : ProgrammaticToolCaller.t) : string :=
  String.concat newline
    ["Execute JavaScript code to orchestrate multiple tool calls efficiently. USE THIS TOOL when you need to process multiple items or make 3+ tool calls.";
     "";
     "REQUIRED for tasks like:";
     "- Getting multiple users (use Promise.all with getUser calls)";
     "- Processing arrays of data";
     "- Making multiple dependent tool calls";
     "- Filtering/aggregating results";
     "- Calling multiple MCP tools in parallel";
     "";
     "Available tools in code:";
     "- Local tools: "]
  ++ joinOrNone (localToolNames this) ++
  String.concat newline
    ["";
     "- MCP tools: "]
  ++ joinOrNone (mcpToolNames this) ++
  String.concat newline
    ["";
     "";
     "**DEFENSIVE HELPER FUNCTIONS (always available):**";
     "- toArray(value) - Converts any value to array safely (handles null, objects, primitives)";
     "- safeGet(obj, 'path.to.prop', defaultValue) - Safe nested property access";
     "- safeMap(value, fn) - Maps over any value (converts to array first)";
     "- safeFilter(value, fn) - Filters any value safely";
     "- first(value) - Gets first item from any value";
     "- len(value) - Gets length of any value safely";
     "- isSuccess(response) - Checks if MCP response was successful";
     "- extractData(response) - Extracts data from various MCP response formats";
     "- extractText(response, default) - Extracts text/string output (for commands, scrapers)";
     "- getCommandOutput(response) - Returns { success, output, error } for command responses";
     "";
     "Example for getting multiple users:";
     "const users = await Promise.all([";
     "  getUser({ id: 'user1' }),";
     "  getUser({ id: 'user2' }),";
     "  getUser({ id: 'user3' })";
     "]);";
     "const avg = calculateAverage({ numbers: users.map(u => u.score) });";
     "return filterByScore({ users, minScore: avg.average });";
     "";
     "Example for MCP scraping with defensive patterns:";
     "const results = await Promise.all([";
     "  mcp_firecrawl_scrape({ url: 'https://example.com' }),";
     "  mcp_firecrawl_scrape({ url: 'https://example.org' })";
     "]);";
     "// Use defensive patterns for MCP responses:";
     "return safeMap(results, r => ({";
     "  success: isSuccess(r),";
     "  content: safeGet(r, 'markdown', '').substring(0, 200),";
     "  title: safeGet(r, 'metadata.title', 'Unknown')";
     "}));";
     "";
     "Example for MCP command execution:";
     "const commands = ['pwd', 'whoami', 'date'];";
     "const results = await Promise.all(";
     "  commands.map(cmd => mcp_run_command({ command: cmd }))";
     ");";
     "// Use extractText to get command output:";
     "return results.map((r, i) => ({";
     "  command: commands[i],";
     "  output: extractText(r, 'No output'),";
     "  success: isSuccess(r)";
     "}));";
     "";
     "**CRITICAL RULES FOR MCP TOOLS:**";
     "1. Pass parameters as a SINGLE OBJECT: mcp_tool({ param1: value1, param2: value2 })";
     "2. ALWAYS use defensive helpers - MCP responses vary by server";
     "3. Check isSuccess(response) before using data";
     "4. Use safeGet() for nested properties - they may not exist";
     "5. Use toArray() when iterating - response might not be an array"].

(** [z.object({ code: z.string().describe(...) })] *)
Definition codeExecutionInputSchema : Zod.Schema :=
  {| Zod._def :=
       Some {| Zod.shape :=
                 Some [("code",
                        Some {| Zod.field_def :=
                                  Some {| Zod.description :=
                                            Some "JavaScript code to execute. Can use async/await. Tools are available as functions. Return final result." |} |})] |} |}.

Section Enhance.
Context {engine : Engine} {model : Model}.

(** [createCodeExecutionTool()] *)
Definition createCodeExecutionTool (this : ProgrammaticToolCaller.t)
  : CodeExecutionTool.t :=
  {| CodeExecutionTool.description := codeExecutionDescription this;
     CodeExecutionTool.inputSchema := codeExecutionInputSchema;
     CodeExecutionTool.execute := ProgrammaticToolCaller.execute |}.

(** A member of the enhanced tool set: one of the tools given, or the
    [code_execution] tool. *)
Inductive EnhancedTool : Type :=
| Given (toolDef : ToolDefinition.t)
| CodeExecution (tool : CodeExecutionTool.t).

(** Defining the property [key] of an object literal: a property of that
    name already there keeps its place and takes the new value, a new
    one comes last. *)
Fixpoint define {V : Type} (entries : list (string * V)) (key : string) (v : V)
  : list (string * V) :=
  match entries with
  | [] => [(key, v)]
  | (k, w) :: rest =>
      if String.eqb k key then (k, v) :: rest else (k, w) :: define rest key v
  end.

(** [createEnhancedToolSet()]: [{ ...this.tools, code_execution:
    this.createCodeExecutionTool() }] *)
Definition createEnhancedToolSet (this : ProgrammaticToolCaller.t)
  : list (string * EnhancedTool) :=
  define (map (fun entry => (entry.1, Given entry.2)) (tools this))
    "code_execution" (CodeExecution (createCodeExecutionTool this)).

(** [withProgrammaticCalling(tools, timeout = 300000)] *)
Definition withProgrammaticCalling (tools : list (string * ToolDefinition.t))
    (timeout : option N)
  : list (string * EnhancedTool) * ProgrammaticToolCaller.t :=
  let wrapper := constructor tools (default 300000%N timeout) in
  (createEnhancedToolSet wrapper, wrapper).

End Enhance.

(** [o[key]] for an object given by its entries. *)
Fixpoint lookup {V : Type} (entries : list (string * V)) (key : string) : option V :=
  match entries with
  | [] => None
  | (k, w) :: rest => if String.eqb k key then Some w else lookup rest key
  end.

End Enhanced.

(** ** The chat route: the tool names of the system prompt *)

Module ChatRoute.

(** [Object.keys(enhancedTools).filter(name => name !== 'code_execution')] *)
Definition toolNames {V : Type} (enhancedTools : list (string * V)) : list string :=
  filter (fun name => name <> "code_execution") (map fst enhancedTools).

(** [toolNames.filter(name => !name.startsWith('mcp_'))] *)
Definition baseTools (names : list string) : list string :=
  filter (fun name => ¬ is_mcp_name name) names.

(** [toolNames.filter(name => name.startsWith('mcp_'))] *)
Definition mcpTools (names : list string) : list string :=
  filter (fun name => is_mcp_name name) names.

End ChatRoute.

(** ** Strings *)

Module JSString.
Import Builtins.

(** [s.indexOf(c)] for a character [c]: the first index at which it
    occurs; [None] stands for [-1]. *)
Fixpoint indexOf (c : Ascii.ascii) (s : string) : option nat :=
  match s with
  | EmptyString => None
  | String d rest => if Ascii.eqb d c then Some 0 else option_map S (indexOf c rest)
  end.

(** [s.substring(0, n)] *)
Fixpoint take (n : nat) (s : string) : string :=
  match n, s with
  | S k, String c rest => String c (take k rest)
  | _, _ => EmptyString
  end.

(** [s.substring(n)] *)
Fixpoint drop (n : nat) (s : string) : string :=
  match n, s with
  | S k, String _ rest => drop k rest
  | _, _ => s
  end.

(** The scan behind [split]: [skip] characters of a separator just
    matched are still to be passed over, [piece] is the text gathered
    since the last separator. *)
Fixpoint split_scan (sep : string) (skip : nat) (piece : string) (s : string)
  : list string :=
  match s with
  | EmptyString => [piece]
  | String c rest =>
      match skip with
      | S k => split_scan sep k piece rest
      | 0 =>
          if String.prefix sep s
          then piece :: split_scan sep (String.length sep - 1) EmptyString rest
          else split_scan sep 0 (piece ++ String c EmptyString) rest
      end
  end.

(** [s.split(sep)] for a separator that is not empty: the pieces between
    the occurrences of [sep], found from the left and not overlapping. *)
Definition split (sep s : string) : list string :=
  split_scan sep 0 EmptyString s.

(** The suffixes of [s] other than [s] itself. *)
Fixpoint proper_suffixes (s : string) : list string :=
  match s with
  | EmptyString => []
  | String _ rest => rest :: proper_suffixes rest
  end.

(** No end of [sep] is also a beginning of it: two occurrences of [sep]
    cannot overlap. *)
Definition border_free (sep : string) : bool :=
  forallb (fun y => String.eqb y EmptyString || negb (String.prefix y sep))
    (proper_suffixes sep).

End JSString.

(** ** The chat interface: reading the response stream *)

Module ChatStream.
Import Builtins.
Import JSString.

(** The markers the chat route puts in front of its events.  A string is
    the sequence of its code units; the markers and the line feed are
    made of code units below 128. *)
Definition toolCallMarker : string := "__TOOL_CALL__:".
Definition metadataMarker : string := "__METADATA__:".

(** The variables the read loop of [handleSubmit] keeps between chunks:
    the text shown so far, the buffer for an event that is not complete,
    and the rest (the tool calls and metrics held in React state), which
    only the two handlers below touch. *)
Record State (U : Type) : Type := {
  assistantContent : string;
  toolCallBuffer : string;
  ui : U
}.
Arguments assistantContent {U} _.
Arguments toolCallBuffer {U} _.
Arguments ui {U} _.

Section ReadLoop.
Context {U : Type}.

(** The two [try] blocks: what is done with the text of a tool-call
    event ([JSON.parse(jsonStr.trim())] and the update of the pending
    tool calls) and with the text after the metadata marker.  Both catch
    their own errors. *)
Variable onToolCallJson : string -> U -> U.
Variable onMetadataJson : string -> U -> U.

(** One turn of the loop over [parts[1..]]. *)
Definition processPart (acc : string * string * U) (part : string)
  : string * string * U :=
  match indexOf (Ascii.ascii_of_nat 10) part with
  | Some (S n) =>
      (acc.1.1 ++ drop (S n + 1) part, acc.1.2,
       onToolCallJson (take (S n) part) acc.2)
  | _ => (acc.1.1, toolCallMarker ++ part, acc.2)
  end.

(** The body of the read loop for one decoded chunk.  [split] gives at
    least one piece, [parts[0]]; in the metadata branch a missing
    [parts[1]] makes [parts[1].trim()] throw inside the [try], after the
    text was added. *)
Definition processChunk (st : State U) (chunk : string) : State U :=
  if String_includes toolCallMarker chunk then
    match split toolCallMarker (toolCallBuffer st ++ chunk) with
    | first :: others =>
        let done := fold_left processPart others (first, EmptyString, ui st) in
        {| assistantContent := assistantContent st ++ done.1.1;
           toolCallBuffer := done.1.2;
           ui := done.2 |}
    | [] => st
    end
  else if String_includes metadataMarker chunk then
    match split metadataMarker chunk with
    | first :: rest =>
        {| assistantContent := assistantContent st ++ first;
           toolCallBuffer := toolCallBuffer st;
           ui := match rest with
                 | second :: _ => onMetadataJson second (ui st)
                 | [] => ui st
                 end |}
    | [] => st
    end
  else
    {| assistantContent := assistantContent st ++ chunk;
       toolCallBuffer := toolCallBuffer st;
       ui := ui st |}.

End ReadLoop.

(** What the chat route enqueues for one tool-call event whose JSON text
    is [json]: [`\n__TOOL_CALL__:${JSON.stringify(event)}\n`]. *)
Definition toolCallFrame (json : string) : string :=
  newline ++ toolCallMarker ++ json ++ newline.

(** What it enqueues at the end for the finish event:
    [`\n\n__METADATA__:${JSON.stringify(finishEvent)}\n`]. *)
Definition metadataFrame (json : string) : string :=
  newline ++ newline ++ metadataMarker ++ json ++ newline.

(** A stretch of the stream as the read loop sees it: the text [pre],
    then for each event the marker, the line [e.1] and the text [e.2] up
    to the next marker. *)
Definition eventText (e : string * string) : string :=
  toolCallMarker ++ e.1 ++ newline ++ e.2.

Definition withEvents (pre : string) (events : list (string * string)) : string :=
  pre ++ foldr (fun e rest => eventText e ++ rest) EmptyString events.

(** The texts between the events. *)
Definition textOf (pre : string) (events : list (string * string)) : string :=
  pre ++ foldr (fun e rest => e.2 ++ rest) EmptyString events.

(** A line that the loop takes for the JSON of an event: not empty and
    without a line feed. *)
Definition isLine (j : string) : Prop :=
  j <> EmptyString /\ indexOf (Ascii.ascii_of_nat 10) j = None.

(** What [streamPendingToolCalls] enqueues for the events waiting in
    [toolCallEvents], whose JSON texts are [jsons]: one frame each, in the
    order of the queue. *)
Definition flushed (jsons : list string) : string :=
  foldr (fun j rest => toolCallFrame j ++ rest) EmptyString jsons.

(** The same frames as the read loop cuts them: the line feed that opens
    a frame is the text after the event before it. *)
Fixpoint frameEvents (j : string) (jsons : list string) : list (string * string) :=
  match jsons with
  | [] => [(j, EmptyString)]
  | j' :: rest => (j, newline) :: frameEvents j' rest
  end.

End ChatStream.

(** ** The tool [validateARMTemplate] of [src/lib/tools.ts] *)

Module ArmTemplate.
Import JS.
Import Builtins.
Local Open Scope completion_scope.

(** The engine's [JSON.parse] on a text: the parse tree of a JSON text, or
    the message of the [SyntaxError].  The tree of an object lists the
    members as the parsed object enumerates them. *)
Class Parser : Type := { JSON_parse_text : string -> Json + string }.

(** [JSON.parse(text)] for a string [text]. *)
Definition parseText {parser : Parser} (text : string) : Completion JsValue :=
  match JSON_parse_text text with
  | inl tree => Normal (revive tree)
  | inr msg => Throw (SyntaxError msg)
  end.

(** The number [n]. *)
Definition Number_of_nat (n : nat) : JsValue :=
  JNum (binary_normalize 53 1024 (Z.of_nat n) 0 false).

(** [v?.length] on data. *)
Definition optional_length (v : JsValue) : JsValue :=
  match v with
  | JArr elems => Number_of_nat (length elems)
  | JStr s => Number_of_nat (String.length s)
  | JObj _ props => default JUndefined (lookup_property props "length")
  | _ => JUndefined
  end.

(** [l.filter(f)] where [f] may throw. *)
Fixpoint Array_filter {A : Type} (f : A -> Completion bool) (l : list A)
  : Completion (list A) :=
  match l with
  | [] => Normal []
  | x :: rest =>
      keep <- f x ;;
      kept <- Array_filter f rest ;;
      Normal (if keep then x :: kept else kept)
  end.

(** [interface ValidationIssue] *)
Record ValidationIssue : Type := {
  code : string;
  message : string;
  severity : string;
  resourceIndex : option nat;
  parameter : option string
}.

Definition missingSchema : ValidationIssue :=
  {| code := "MissingSchema";
     message := "Template does not specify a $schema property";
     severity := "warning";
     resourceIndex := None;
     parameter := None |}.

Definition missingResources : ValidationIssue :=
  {| code := "MissingResources";
     message := "Template must contain a resources array";
     severity := "error";
     resourceIndex := None;
     parameter := None |}.

Definition missingResourceType (index : nat) : ValidationIssue :=
  {| code := "MissingResourceType";
     message := "Resource at index " ++ pretty index ++ " is missing a type property";
     severity := "error";
     resourceIndex := Some index;
     parameter := None |}.

Definition missingApiVersion (index : nat) : ValidationIssue :=
  {| code := "MissingApiVersion";
     message := "Resource at index " ++ pretty index
                ++ " is missing an apiVersion property";
     severity := "warning";
     resourceIndex := Some index;
     parameter := None |}.

Definition missingParameter (param : string) : ValidationIssue :=
  {| code := "MissingParameter";
     message := "Parameter '" ++ param ++ "' is required but not provided";
     severity := "warning";
     resourceIndex := None;
     parameter := Some param |}.

Definition invalidJSON (parseError : JsError) : ValidationIssue :=
  {| code := "InvalidJSON";
     message := "Template is not valid JSON: " ++ JS.message parseError;
     severity := "error";
     resourceIndex := None;
     parameter := None |}.

(** The object returned: [properties] is [null] and [summary] is absent
    in the report of the [catch] block. *)
Record TemplateProperties : Type := {
  schema : JsValue;
  contentVersion : JsValue;
  resources : JsValue
}.

Record Properties : Type := {
  template : TemplateProperties;
  mode : string;
  resourceGroup : string;
  subscriptionId : string
}.

Record Summary : Type := {
  totalResources : JsValue;
  errorCount : nat;
  warningCount : nat
}.

Record Validation : Type := {
  valid : bool;
  errors : list ValidationIssue;
  warnings : list ValidationIssue;
  properties : option Properties;
  summary : option Summary
}.

(** The arrays [errors] and [warnings] while the checks run. *)
Definition Issues : Type := list ValidationIssue * list ValidationIssue.

(** The callback of [parsedTemplate.resources.forEach]. *)
Definition checkResource (index : nat) (resource : JsValue) (issues : Issues)
  : Completion Issues :=
  type <- member resource "type" ;;
  let errors :=
    if ToBoolean type then issues.1
    else (issues.1 ++ [missingResourceType index])%list in
  apiVersion <- member resource "apiVersion" ;;
  let warnings :=
    if ToBoolean apiVersion then issues.2
    else (issues.2 ++ [missingApiVersion index])%list in
  Normal (errors, warnings).

Fixpoint forEach (index : nat) (resources : list JsValue) (issues : Issues)
  : Completion Issues :=
  match resources with
  | [] => Normal issues
  | resource :: rest =>
      issues' <- checkResource index resource issues ;;
      forEach (S index) rest issues'
  end.

(** The callback of [templateParams.filter]:
    [!providedParams.includes(p) &&
     parsedTemplate.parameters[p].defaultValue === undefined]. *)
Definition isMissing (templateParameters : JsValue) (providedParams : list string)
    (p : string) : Completion bool :=
  if existsb (String.eqb p) providedParams then Normal false
  else
    declared <- member templateParameters p ;;
    defaultValue <- member declared "defaultValue" ;;
    Normal (match defaultValue with JUndefined => true | _ => false end).

(** The check of the parameters.  [parameters] is the record given by the
    caller, when there is one. *)
Definition checkParameters (parsedTemplate : JsValue)
    (parameters : option (list (string * JsValue))) (issues : Issues)
  : Completion Issues :=
  match parameters with
  | Some provided =>
      templateParameters <- member parsedTemplate "parameters" ;;
      if ToBoolean templateParameters then
        templateParams <- Object_keys templateParameters ;;
        missingParams <-
          Array_filter (isMissing templateParameters (map fst provided))
            templateParams ;;
        Normal (issues.1, (issues.2 ++ map missingParameter missingParams)%list)
      else Normal issues
  | None => Normal issues
  end.

(** [s || fallback] for an optional string. *)
Definition string_or (s : option string) (fallback : string) : string :=
  match s with
  | Some text => if String.eqb text "" then fallback else text
  | None => fallback
  end.

(** The body of the [try] block after the text was parsed.  The
    properties of the template are data: reading one again gives the same
    value. *)
Definition validate (parsedTemplate : JsValue) (subscriptionId : string)
    (resourceGroupName : option string)
    (parameters : option (list (string * JsValue))) (mode : string)
  : Completion Validation :=
  schema <- member parsedTemplate "$schema" ;;
  let warnings := if ToBoolean schema then [] else [missingSchema] in
  resources <- member parsedTemplate "resources" ;;
  checked <- match resources with
             | JArr elems => forEach 0 elems ([], warnings)
             | _ => Normal ([missingResources], warnings)
             end ;;
  issues <- checkParameters parsedTemplate parameters checked ;;
  contentVersion <- member parsedTemplate "contentVersion" ;;
  Normal
    {| valid := Nat.eqb (length issues.1) 0;
       errors := issues.1;
       warnings := issues.2;
       properties :=
         Some
           {| template :=
                {| schema :=
                     or_else schema
                       (JStr "https://schema.management.azure.com/schemas/2019-04-01/deploymentTemplate.json#");
                   contentVersion := or_else contentVersion (JStr "1.0.0.0");
                   resources := or_else resources (JArr []) |};
              mode := mode;
              resourceGroup := string_or resourceGroupName "validation-only";
              subscriptionId := subscriptionId |};
       summary :=
         Some
           {| totalResources :=
                or_else
                  (if is_nullish resources then JUndefined
                   else optional_length resources)
                  (Number_of_nat 0);
              errorCount := length issues.1;
              warningCount := length issues.2 |} |}.

(** The report of the [catch] block. *)
Definition invalid (parseError : JsError) : Validation :=
  {| valid := false;
     errors := [invalidJSON parseError];
     warnings := [];
     properties := None;
     summary := None |}.

(** [validateARMTemplate.execute]; [mode] is ['Incremental'] when it is
    not given. *)
Definition execute {parser : Parser} (subscriptionId : string)
    (resourceGroupName : option string) (template : string)
    (parameters : option (list (string * JsValue))) (mode : option string)
  : Completion Validation :=
  try_catch
    (parsedTemplate <- parseText template ;;
     validate parsedTemplate subscriptionId resourceGroupName parameters
       (default "Incremental" mode))
    (fun parseError => Normal (invalid parseError)).

(** The indices, from [index] on, of the resources whose property [name]
    is falsy. *)
Fixpoint lacking (name : string) (index : nat) (resources : list JsValue)
  : list nat :=
  match resources with
  | [] => []
  | resource :: rest =>
      match member resource name with
      | Normal v =>
          if ToBoolean v then lacking name (S index) rest
          else index :: lacking name (S index) rest
      | Throw _ => lacking name (S index) rest
      end
  end.

End ArmTemplate.

(** ** Sample data for the examples *)

Module Samples.
Import JS.
Import Sandbox.

(** An engine for the examples.  It prints the special values and the
    doubles [m * 2^e] with [0 <= e] (integers; the decimal form is the
    ECMAScript one below [10^21]); no example prints another double.  The
    functions of the examples return [undefined] when called. *)
Definition sample_engine : Engine :=
  {| Number_toString := fun x =>
       match x with
       | S754_zero _ => "0"
       | S754_infinity false => "Infinity"
       | S754_infinity true => "-Infinity"
       | S754_nan => "NaN"
       | S754_finite s m e =>
           (if s then "-" else "") ++ pretty (Z.pos m * 2 ^ Z.max e 0)%Z
       end;
     Function_call := fun _ _ => Normal JUndefined |}.

(** A heuristic for the examples: a flat rate per recorded call. *)
Definition sample_heuristic (tr : list ToolCallRecord) : Heuristic :=
  {| intermediate := 40 * length tr;
     roundTrip := 25 * length tr;
     overhead := 10 * length tr;
     decisions := 5 * length tr;
     explanation := "flat rate per call" |}.

(** The model in which every script behaves as [run]. *)
Definition scripted (run : ScriptRun) : Model :=
  {| runScript := fun _ => run; heuristic := sample_heuristic |}.

Definition local_call (name : string) (res : JsValue) : ToolCallRecord :=
  {| Call.toolName := name;
     Call.args := obj [];
     Call.result := res;
     Call.error := None;
     Call.isMCP := false;
     Call.executionTimeMs := 3%N |}.

Definition mcp_call (name : string) (res : JsValue) : ToolCallRecord :=
  {| Call.toolName := name;
     Call.args := obj [("url", JStr "https://example.com")];
     Call.result := res;
     Call.error := None;
     Call.isMCP := true;
     Call.executionTimeMs := 120%N |}.

Definition failed_call (name : string) (msg : string) : ToolCallRecord :=
  {| Call.toolName := name;
     Call.args := obj [];
     Call.result := JUndefined;
     Call.error := Some (Error msg);
     Call.isMCP := false;
     Call.executionTimeMs := 1%N |}.

(** [await a()] without a [return]. *)
Definition one_call_no_return (res : JsValue) : ScriptRun :=
  {| calls := [local_call "a" res]; settles := Some (40%N, Resolves JUndefined) |}.

(** [try { await a() } catch (e) { }] where [a] throws. *)
Definition one_failed_call_no_return : ScriptRun :=
  {| calls := [failed_call "a" "not found"];
     settles := Some (9%N, Resolves JUndefined) |}.

(** [await Promise.all([a(), b(), mcp_c()])] without a [return]. *)
Definition three_calls_no_return : ScriptRun :=
  {| calls := [local_call "a" (JStr "A"); local_call "b" (JStr "B");
               mcp_call "mcp_c" (JStr "C")];
     settles := Some (150%N, Resolves JUndefined) |}.

(** [await a(); try { await b() } catch (e) { }] without a [return],
    where [b] throws. *)
Definition two_calls_one_failed_no_return : ScriptRun :=
  {| calls := [local_call "a" (JStr "A"); failed_call "b" "down"];
     settles := Some (60%N, Resolves JUndefined) |}.

(** A script that does nothing. *)
Definition no_call_no_return : ScriptRun :=
  {| calls := []; settles := Some (1%N, Resolves JUndefined) |}.

(** [await a(); throw new Error('boom')] *)
Definition throws_after_one_call : ScriptRun :=
  {| calls := [local_call "a" (JStr "A")];
     settles := Some (12%N, Rejects (Error "boom")) |}.

(** A script that needs 26 seconds. *)
Definition runs_26_seconds : ScriptRun :=
  {| calls := [local_call "a" (JStr "A")];
     settles := Some (26000%N, Resolves (JStr "late")) |}.

(** [const r = await a(); return [r, r]] *)
Definition returns_a_pair : ScriptRun :=
  {| calls := [local_call "a" (JStr "A"); mcp_call "mcp_c" (JStr "C");
               local_call "a" (JStr "A")];
     settles := Some (75%N, Resolves (JArr [JStr "A"; JStr "A"])) |}.

(** A sandbox that still holds two records of an earlier run. *)
Definition used_sandbox : ToolOrchestrationSandbox :=
  {| trace := [local_call "a" (JStr "A"); local_call "b" (JStr "B")];
     invocations := [] |}.

Definition tool (f : option ToolDefinition.ToolExecuteFunction) : ToolDefinition.t :=
  {| ToolDefinition.description := Some "a tool"; ToolDefinition.execute := f |}.

Definition echo : ToolDefinition.ToolExecuteFunction :=
  fun arguments => Normal (JArr arguments).

Definition sample_tools : list (string * ToolDefinition.t) :=
  [("getUser", tool (Some echo));
   ("mcp_firecrawl_scrape", tool (Some echo));
   ("schemaOnly", tool None);
   ("calculateAverage", tool (Some echo))].

End Samples.

(** ** Sample schemas *)

Module SchemaSamples.
Import JS.

(** The JSON Schema of a scraping tool: two flat properties, one of them
    required. *)
Definition scrape_schema : Json :=
  JsonObj
    [("type", JsonStr "object");
     ("properties",
      JsonObj
        [("url", JsonObj [("type", JsonStr "string");
                          ("description", JsonStr "The URL to scrape")]);
         ("depth", JsonObj [("type", JsonStr "number");
                            ("description", JsonStr "")])]);
     ("required", JsonArr [JsonStr "url"])].

Definition scrape_tool : ToolSchema.t :=
  {| ToolSchema.definition := Samples.tool (Some Samples.echo);
     ToolSchema.parameters := Some scrape_schema;
     ToolSchema.inputSchema := None |}.

(** A schema in which one property has no schema of its own. *)
Definition broken_schema : Json :=
  JsonObj
    [("type", JsonStr "object");
     ("properties",
      JsonObj
        [("url", JsonObj [("type", JsonStr "string");
                          ("description", JsonStr "The URL to scrape")]);
         ("depth", JsonNull)])].

Definition broken_tool : ToolSchema.t :=
  {| ToolSchema.definition := Samples.tool (Some Samples.echo);
     ToolSchema.parameters := Some broken_schema;
     ToolSchema.inputSchema := None |}.

(** A tool without description and without schema. *)
Definition undescribed_tool : ToolSchema.t :=
  {| ToolSchema.definition :=
       {| ToolDefinition.description := None;
          ToolDefinition.execute := Some Samples.echo |};
     ToolSchema.parameters := None;
     ToolSchema.inputSchema := None |}.

End SchemaSamples.

(** ** Templates for the examples of [validateARMTemplate] *)

Module TemplateSamples.
Import JS.
Import ArmTemplate.

Definition quoted (s : string) : string :=
  String (Ascii.ascii_of_nat 34) s ++ String (Ascii.ascii_of_nat 34) EmptyString.

(** A template with two resources, the second without type, and no
    [$schema]. *)
Definition two_resources_text : string :=
  "{" ++ quoted "resources" ++ ":[{" ++ quoted "type" ++ ":" ++ quoted "vm" ++ ","
      ++ quoted "apiVersion" ++ ":" ++ quoted "1" ++ "},{}]}".

Definition two_resources_tree : Json :=
  JsonObj [("resources",
            JsonArr [JsonObj [("type", JsonStr "vm"); ("apiVersion", JsonStr "1")];
                     JsonObj []])].

(** A template whose only resource has a type. *)
Definition typed_text : string :=
  "{" ++ quoted "resources" ++ ":[{" ++ quoted "type" ++ ":" ++ quoted "vm" ++ "}]}".

Definition typed_tree : Json :=
  JsonObj [("resources", JsonArr [JsonObj [("type", JsonStr "vm")]])].

(** A template whose second resource is [null]. *)
Definition null_resource_text : string :=
  "{" ++ quoted "resources" ++ ":[{},null]}".

Definition null_resource_tree : Json :=
  JsonObj [("resources", JsonArr [JsonObj []; JsonNull])].

(** A parser that knows these texts. *)
Definition sample_parser : Parser :=
  {| JSON_parse_text := fun text =>
       if String.eqb text two_resources_text then inl two_resources_tree
       else if String.eqb text typed_text then inl typed_tree
       else if String.eqb text null_resource_text then inl null_resource_tree
       else inr "Unexpected token" |}.

End TemplateSamples.

(** ** A user interface state for the examples of the read loop *)

Module StreamSamples.
Import ChatStream.

(** The handlers only note the texts they were given. *)
Definition noteToolCall (json : string) (seen : list string) : list string :=
  (seen ++ [String.append "tool-call " json])%list.

Definition noteMetadata (json : string) (seen : list string) : list string :=
  (seen ++ [String.append "metadata " json])%list.

Definition start : State (list string) :=
  {| assistantContent := "Hi"; toolCallBuffer := EmptyString; ui := [] |}.

(** The state in which the beginning [{1] of an event waits in the
    buffer. *)
Definition waiting : State (list string) :=
  {| assistantContent := "Hi"; toolCallBuffer := "__TOOL_CALL__:{1"; ui := [] |}.

End StreamSamples.

(** * Properties *)

Import JS.
Import Sandbox.
Import ProgrammaticToolCaller.

(** ** The serialization statement *)

Section Serialization.
Context {engine : Engine}.

Lemma is_object_cases v :
  is_object v = true ->
  (exists elems, v = JArr elems) \/ (exists o props, v = JObj o props).
Proof.
  destruct v; cbn; try discriminate; eauto.
Qed.

Lemma Object_keys_object v :
  is_object v = true -> exists keys, Object_keys v = Normal keys.
Proof.
  intros [[elems ->] | (o & props & ->)]%is_object_cases; cbn; eauto.
Qed.

Lemma String_primitive v :
  is_object v = false -> is_nullish v = false -> exists s, String_ v = Normal s.
Proof.
  destruct v as [| |[]| | | | | | |]; cbn; try discriminate; eauto.
Qed.

(** The statement always assigns a value: no error leaves it. *)
Lemma serializeOutput_total output toolCalls :
  exists v, serializeOutput output toolCalls = Normal v.
Proof.
  unfold serializeOutput.
  destruct (is_nullish output) eqn:Hnull; cbn; [eauto |].
  destruct (JSON_roundtrip output) as [copy | e]; cbn; [eauto |].
  destruct (is_object output) eqn:Hobj.
  - destruct (Object_keys_object _ Hobj) as [keys Hkeys].
    destruct (cbind (Object_entries output) _) as [safe | e']; cbn; [eauto |].
    rewrite Hkeys; cbn; eauto.
  - destruct (String_primitive _ Hobj Hnull) as [s ->]; cbn; eauto.
Qed.

End Serialization.

(** ** The three ways a tool call ends *)

Section Outcomes.
Context {engine : Engine} {model : Model}.

Lemma execute_resolved code sb ms out :
  settles (runScript code) = Some (ms, Resolves out) ->
  (ms < 25000)%N ->
  exists v,
    serializeOutput out (recorded code sb) = Normal v /\
    ProgrammaticToolCaller.execute code sb =
      (Normal {| ToolOutput.result := v;
                 ToolOutput.metadata :=
                   buildMetadata (recorded code sb) (estimate (recorded code sb)) ms |},
       after_call sb [InvExecute code; InvGetComprehensiveTokenSavings; InvReset]).
Proof.
  intros Hrun Hlt.
  destruct (serializeOutput_total out (recorded code sb)) as [v Hv].
  exists v. split; [exact Hv |].
  apply N.ltb_lt in Hlt.
  unfold ProgrammaticToolCaller.execute, try_finally, Sandbox.try_catch, bind,
    Sandbox.execute, getComprehensiveTokenSavings, lift, ret, reset, after_call.
  rewrite Hrun. unfold await_race. rewrite Hlt. cbn.
  rewrite Hv. cbn. rewrite <- !app_assoc. reflexivity.
Qed.

Lemma execute_rejected code sb ms e :
  settles (runScript code) = Some (ms, Rejects e) ->
  (ms < 25000)%N ->
  ProgrammaticToolCaller.execute code sb =
    (Throw (Error ("Code execution failed: " ++ message e)),
     after_call sb [InvExecute code; InvReset]).
Proof.
  intros Hrun Hlt. apply N.ltb_lt in Hlt.
  unfold ProgrammaticToolCaller.execute, try_finally, Sandbox.try_catch, bind,
    Sandbox.execute, lift, throw, reset, after_call.
  rewrite Hrun. unfold await_race. rewrite Hlt. cbn.
  rewrite <- !app_assoc. reflexivity.
Qed.

Lemma execute_timed_out code sb :
  exceeds_budget code ->
  ProgrammaticToolCaller.execute code sb =
    (Throw (Error "Code execution failed: Code execution timeout after 25 seconds"),
     after_call sb [InvExecute code; InvReset]).
Proof.
  unfold exceeds_budget. intros Hrun.
  unfold ProgrammaticToolCaller.execute, try_finally, Sandbox.try_catch, bind,
    Sandbox.execute, lift, throw, reset, after_call, await_race.
  destruct (settles (runScript code)) as [[ms s] |].
  - assert (Hge : (ms <? 25000)%N = false) by (apply N.ltb_ge; lia).
    destruct s; rewrite Hge; cbn; rewrite <- !app_assoc; reflexivity.
  - cbn. rewrite <- !app_assoc. reflexivity.
Qed.

(** A tool call that returns is one whose script resolved in time. *)
Lemma execute_returns_inv code sb res :
  (ProgrammaticToolCaller.execute code sb).1 = Normal res ->
  exists ms out,
    settles (runScript code) = Some (ms, Resolves out) /\ (ms < 25000)%N.
Proof.
  intros Hres.
  destruct (settles (runScript code)) as [[ms s] |] eqn:Hrun.
  - destruct (N.ltb_spec ms 25000) as [Hlt | Hge].
    + destruct s as [out | e]; [eauto |].
      rewrite (execute_rejected _ _ _ _ Hrun Hlt) in Hres. discriminate.
    + unfold ProgrammaticToolCaller.execute, try_finally, Sandbox.try_catch, bind,
        Sandbox.execute, lift, throw, reset, await_race in Hres.
      rewrite Hrun in Hres.
      assert (Hf : (ms <? 25000)%N = false) by (apply N.ltb_ge; lia).
      destruct s; rewrite Hf in Hres; cbn in Hres; discriminate.
  - rewrite execute_timed_out in Hres; [discriminate |].
    unfold exceeds_budget. rewrite Hrun. exact I.
Qed.

End Outcomes.

(** ** Scripts that return nothing *)

Section NoReturn.
Context {engine : Engine} {model : Model}.

(** What a script that resolved in time with [undefined] or [null] gets
    as its result: the value derived from the trace. *)
Lemma execute_no_return code sb ms out :
  settles (runScript code) = Some (ms, Resolves out) ->
  (ms < 25000)%N ->
  is_nullish out = true ->
  exists res,
    (ProgrammaticToolCaller.execute code sb).1 = Normal res /\
    ToolOutput.result res = extractFromToolCalls (recorded code sb).
Proof.
  intros Hrun Hlt Hnull.
  destruct (execute_resolved code sb ms out Hrun Hlt) as (v & Hv & Hexec).
  rewrite Hexec. eexists. split; [reflexivity |]. cbn.
  unfold serializeOutput in Hv. rewrite Hnull in Hv. cbn in Hv.
  congruence.
Qed.

(** With a single call the value derived from the trace is
    [lastCall.result || { success: !lastCall.error, message: 'Tool
    executed' }]. *)
Lemma extract_single_call tc :
  extractFromToolCalls [tc] =
    or_else (Call.result tc)
      (obj [("success", JBool (succeeded tc)); ("message", JStr "Tool executed")]).
Proof. reflexivity. Qed.

(** C10: a script that returns [undefined] or [null] and records no call
    gets the fixed object [{ message: 'Code executed but returned no
    result', success: true }] as its result; the tool call returns, it
    does not throw. *)
Theorem no_call_no_return_result code sb ms out :
  settles (runScript code) = Some (ms, Resolves out) ->
  (ms < 25000)%N ->
  is_nullish out = true ->
  recorded code sb = [] ->
  exists res,
    (ProgrammaticToolCaller.execute code sb).1 = Normal res /\
    ToolOutput.result res =
      obj [("message", JStr "Code executed but returned no result");
           ("success", JBool true)].
Proof.
  intros Hrun Hlt Hnull Hnone.
  destruct (execute_no_return code sb ms out Hrun Hlt Hnull) as (res & Hres & Hout).
  exists res. split; [exact Hres |].
  rewrite Hout, Hnone. reflexivity.
Qed.

(** C1, as amended: a script that returns [undefined] or [null] and
    records exactly one call gets that call's result whenever the result
    is truthy, and the object [{ success: !error, message: 'Tool executed'
    }] when the call has no result ([undefined] or [null]). *)
Theorem single_call_result_or_fallback code sb ms out tc :
  settles (runScript code) = Some (ms, Resolves out) ->
  (ms < 25000)%N ->
  is_nullish out = true ->
  recorded code sb = [tc] ->
  exists res,
    (ProgrammaticToolCaller.execute code sb).1 = Normal res /\
    (ToBoolean (Call.result tc) = true ->
     ToolOutput.result res = Call.result tc) /\
    (is_nullish (Call.result tc) = true ->
     ToolOutput.result res =
       obj [("success", JBool (succeeded tc)); ("message", JStr "Tool executed")]).
Proof.
  intros Hrun Hlt Hnull Hone.
  destruct (execute_no_return code sb ms out Hrun Hlt Hnull) as (res & Hres & Hout).
  exists res. split; [exact Hres |].
  rewrite Hout, Hone, extract_single_call. unfold or_else.
  split.
  - intros ->. reflexivity.
  - intros Hmissing.
    destruct (Call.result tc); try discriminate; reflexivity.
Qed.

(** C2: a script that returns [undefined] or [null] and records [m > 1]
    calls gets a summary object; its [results] array has one entry per
    recorded call, in order, made of the call's tool name, success flag
    and result, the flag being [true] exactly for a call that recorded
    no error; its [lastResult] is the result of the last recorded
    call. *)
Theorem several_calls_summary code sb ms out :
  settles (runScript code) = Some (ms, Resolves out) ->
  (ms < 25000)%N ->
  is_nullish out = true ->
  1 < length (recorded code sb) ->
  exists res results lastCall,
    (ProgrammaticToolCaller.execute code sb).1 = Normal res /\
    ToolOutput.result res =
      obj [("message",
             JStr ("Executed " ++ pretty (length (recorded code sb)) ++ " tool calls"));
           ("results", JArr results);
           ("lastResult", Call.result lastCall)] /\
    get_property (ToolOutput.result res) "results" = JArr results /\
    length results = length (recorded code sb) /\
    (forall i tc,
        recorded code sb !! i = Some tc ->
        results !! i =
          Some (obj [("tool", JStr (Call.toolName tc));
                     ("success",
                      JBool match Call.error tc with
                            | None => true
                            | Some _ => false
                            end);
                     ("result", Call.result tc)])) /\
    last (recorded code sb) = Some lastCall /\
    get_property (ToolOutput.result res) "lastResult" = Call.result lastCall.
Proof.
  intros Hrun Hlt Hnull Hmany.
  destruct (execute_no_return code sb ms out Hrun Hlt Hnull) as (res & Hres & Hout).
  set (tcs := recorded code sb) in *.
  destruct (last tcs) as [lastCall |] eqn:Hlast.
  2: { apply last_None in Hlast. rewrite Hlast in Hmany. cbn in Hmany. lia. }
  assert (Hsummary :
    ToolOutput.result res =
      obj [("message", JStr ("Executed " ++ pretty (length tcs) ++ " tool calls"));
           ("results", JArr (map summaryEntry tcs));
           ("lastResult", Call.result lastCall)]).
  { rewrite Hout. unfold extractFromToolCalls. rewrite Hlast.
    destruct (Nat.eqb_spec (length tcs) 1) as [Heq | _]; [lia | reflexivity]. }
  exists res, (map summaryEntry tcs), lastCall.
  split; [exact Hres |]. split; [exact Hsummary |].
  split; [rewrite Hsummary; reflexivity |].
  split; [apply length_map |].
  split.
  - intros i tc Hi. rewrite list_lookup_fmap, Hi. reflexivity.
  - split; [reflexivity | rewrite Hsummary; reflexivity].
Qed.

End NoReturn.

(** ** Lists: the two filters and the set of names *)

Lemma filter_split_length {A} (P : A -> Prop) `{!forall x, Decision (P x)} (l : list A) :
  length l = length (filter (fun x => ¬ P x) l) + length (filter P l).
Proof.
  induction l as [| x l IH]; [reflexivity |].
  rewrite !filter_cons.
  destruct (decide (P x)) as [HP | HP].
  - rewrite decide_False by tauto. cbn. lia.
  - rewrite decide_True by exact HP. cbn. lia.
Qed.

Lemma Set_add_elem s x y : y ∈ Set_add s x <-> y ∈ s \/ y = x.
Proof.
  unfold Set_add. destruct (decide (x ∈ s)) as [Hin | Hout].
  - split; [tauto | intros [? | ->]; assumption].
  - rewrite elem_of_app, list_elem_of_singleton. tauto.
Qed.

Lemma Set_add_NoDup s x : NoDup s -> NoDup (Set_add s x).
Proof.
  intros Hs. unfold Set_add. destruct (decide (x ∈ s)) as [Hin | Hout]; [exact Hs |].
  apply NoDup_app. split; [exact Hs |]. split.
  - intros y Hy ->%list_elem_of_singleton. contradiction.
  - apply NoDup_singleton.
Qed.

Lemma fold_Set_add_elem names s y :
  y ∈ fold_left Set_add names s <-> y ∈ s \/ y ∈ names.
Proof.
  revert s. induction names as [| x names IH]; intros s; cbn.
  - rewrite elem_of_nil. tauto.
  - rewrite IH, Set_add_elem, elem_of_cons. tauto.
Qed.

Lemma fold_Set_add_NoDup names s : NoDup s -> NoDup (fold_left Set_add names s).
Proof.
  revert s. induction names as [| x names IH]; intros s Hs; cbn; [exact Hs |].
  apply IH, Set_add_NoDup, Hs.
Qed.

Lemma Set_spread_elem names y : y ∈ Set_spread names <-> y ∈ names.
Proof.
  unfold Set_spread. rewrite fold_Set_add_elem, elem_of_nil. tauto.
Qed.

Lemma Set_spread_NoDup names : NoDup (Set_spread names).
Proof.
  apply fold_Set_add_NoDup, NoDup_nil_2.
Qed.

(** ** Runs that fail, and the reset *)

Section Failure.
Context {engine : Engine} {model : Model}.

(** Whatever the script does, the sandbox is left reset, and [reset] is
    the last method invoked on it. *)
Lemma execute_final_state code sb :
  exists log,
    (ProgrammaticToolCaller.execute code sb).2 = after_call sb (log ++ [InvReset]).
Proof.
  destruct (settles (runScript code)) as [[ms s] |] eqn:Hrun.
  - destruct (N.ltb_spec ms 25000) as [Hlt | Hge].
    + destruct s as [out | e].
      * destruct (execute_resolved code sb ms out Hrun Hlt) as (v & _ & ->).
        exists [InvExecute code; InvGetComprehensiveTokenSavings]. reflexivity.
      * rewrite (execute_rejected code sb ms e Hrun Hlt).
        exists [InvExecute code]. reflexivity.
    + exists [InvExecute code].
      unfold ProgrammaticToolCaller.execute, try_finally, Sandbox.try_catch, bind,
        Sandbox.execute, lift, throw, reset, after_call, await_race.
      rewrite Hrun.
      assert (Hf : (ms <? 25000)%N = false) by (apply N.ltb_ge; lia).
      destruct s; rewrite Hf; cbn; rewrite <- !app_assoc; reflexivity.
  - exists [InvExecute code]. rewrite execute_timed_out; [reflexivity |].
    unfold exceeds_budget. rewrite Hrun. exact I.
Qed.

(** C3, as amended: a script that throws after completing [j] calls makes
    the tool call throw an error whose message is ['Code execution
    failed: '] followed by the message of the error thrown; no output is
    returned.  The [j] records are in the sandbox when the script fails,
    and the reset that runs before the error propagates removes them: the
    sandbox the caller is left with has an empty trace. *)
Theorem script_error_propagates code sb ms e :
  settles (runScript code) = Some (ms, Rejects e) ->
  (ms < 25000)%N ->
  (ProgrammaticToolCaller.execute code sb).1 =
    Throw (Error ("Code execution failed: " ++ message e)) /\
  trace (Sandbox.execute code sb).2 = recorded code sb /\
  trace (ProgrammaticToolCaller.execute code sb).2 = [] /\
  invocations (ProgrammaticToolCaller.execute code sb).2 =
    (invocations sb ++ [InvExecute code; InvReset])%list.
Proof.
  intros Hrun Hlt.
  rewrite (execute_rejected code sb ms e Hrun Hlt). cbn.
  repeat split; reflexivity.
Qed.

(** C4: when the script has not finished within the budget of 25000 ms,
    the tool call throws the timeout error, whatever calls are still
    outstanding; it returns no output; and the script is not run again:
    [sandbox.execute] is invoked once, followed by the reset. *)
Theorem timeout_surfaces code sb :
  exceeds_budget code ->
  (ProgrammaticToolCaller.execute code sb).1 =
    Throw (Error "Code execution failed: Code execution timeout after 25 seconds") /\
  (forall res, (ProgrammaticToolCaller.execute code sb).1 <> Normal res) /\
  invocations (ProgrammaticToolCaller.execute code sb).2 =
    (invocations sb ++ [InvExecute code; InvReset])%list.
Proof.
  intros Hlate. rewrite (execute_timed_out code sb Hlate). cbn.
  split; [reflexivity |]. split; [discriminate | reflexivity].
Qed.

(** C6: on every path -- the script returns, throws or times out -- the
    sandbox's [reset] is the last thing invoked before the tool call
    returns or throws, and it leaves the trace empty; a following script
    that makes no call therefore reports no call, however many records
    the sandbox held before. *)
Theorem reset_on_every_path code sb :
  last (invocations (ProgrammaticToolCaller.execute code sb).2) = Some InvReset /\
  trace (ProgrammaticToolCaller.execute code sb).2 = [] /\
  (forall code' ms out,
      settles (runScript code') = Some (ms, Resolves out) ->
      (ms < 25000)%N ->
      calls (runScript code') = [] ->
      exists res,
        (ProgrammaticToolCaller.execute code'
           (ProgrammaticToolCaller.execute code sb).2).1 = Normal res /\
        Metadata.toolCallCount (ToolOutput.metadata res) = 0 /\
        Metadata.sandboxToolCalls (ToolOutput.metadata res) = []).
Proof.
  destruct (execute_final_state code sb) as [log ->].
  split; [| split].
  - cbn. rewrite app_assoc. apply last_snoc.
  - reflexivity.
  - intros code' ms out Hrun Hlt Hnone.
    destruct (execute_resolved code' (after_call sb (log ++ [InvReset])) ms out Hrun Hlt)
      as (v & _ & ->).
    eexists. split; [reflexivity |].
    unfold recorded; rewrite Hnone; cbn. split; reflexivity.
Qed.

End Failure.

(** ** The metadata of a completed run *)

Section Completed.
Context {engine : Engine} {model : Model}.

Lemma execute_returns code sb res :
  (ProgrammaticToolCaller.execute code sb).1 = Normal res ->
  exists ms,
    ToolOutput.metadata res =
      buildMetadata (recorded code sb) (estimate (recorded code sb)) ms.
Proof.
  intros Hres.
  destruct (execute_returns_inv code sb res Hres) as (ms & out & Hrun & Hlt).
  destruct (execute_resolved code sb ms out Hrun Hlt) as (v & _ & Hexec).
  rewrite Hexec in Hres. cbn in Hres. injection Hres as <-.
  exists ms. reflexivity.
Qed.

(** C7: for every completed run the total of the token savings reported
    is the sum of the four components of the breakdown, and a run without
    calls reports zero for all four and for the total. *)
Theorem total_is_sum_of_components code sb res :
  (ProgrammaticToolCaller.execute code sb).1 = Normal res ->
  Metadata.totalTokensSaved (ToolOutput.metadata res) =
    Breakdown.intermediateResults
      (Metadata.tokenSavingsBreakdown (ToolOutput.metadata res)) +
    Breakdown.roundTripContext
      (Metadata.tokenSavingsBreakdown (ToolOutput.metadata res)) +
    Breakdown.toolCallOverhead
      (Metadata.tokenSavingsBreakdown (ToolOutput.metadata res)) +
    Breakdown.llmDecisions
      (Metadata.tokenSavingsBreakdown (ToolOutput.metadata res)) /\
  (Metadata.toolCallCount (ToolOutput.metadata res) = 0 ->
   Breakdown.intermediateResults
     (Metadata.tokenSavingsBreakdown (ToolOutput.metadata res)) = 0 /\
   Breakdown.roundTripContext
     (Metadata.tokenSavingsBreakdown (ToolOutput.metadata res)) = 0 /\
   Breakdown.toolCallOverhead
     (Metadata.tokenSavingsBreakdown (ToolOutput.metadata res)) = 0 /\
   Breakdown.llmDecisions
     (Metadata.tokenSavingsBreakdown (ToolOutput.metadata res)) = 0 /\
   Metadata.totalTokensSaved (ToolOutput.metadata res) = 0).
Proof.
  intros Hres. destruct (execute_returns code sb res Hres) as [ms ->].
  cbn. split; [reflexivity |].
  destruct (recorded code sb); cbn; [intros _; repeat split | discriminate].
Qed.

(** C8: for every completed run the metadata splits the trace
    consistently.  Each recorded call is counted once, as bridged when
    its [isMCP] flag is set and as local otherwise, so [toolCallCount] is
    [localToolCallCount + mcpToolCallCount]; [toolsUsed] lists the tool
    names of the trace without duplicates; [sandboxToolCalls] has one
    entry per recorded call, in order, with the call's tool name,
    arguments, result, error message, origin flag and duration. *)
Theorem metadata_partitions_trace code sb res :
  (ProgrammaticToolCaller.execute code sb).1 = Normal res ->
  Metadata.toolCallCount (ToolOutput.metadata res) =
    Metadata.localToolCallCount (ToolOutput.metadata res) +
    Metadata.mcpToolCallCount (ToolOutput.metadata res) /\
  Metadata.toolCallCount (ToolOutput.metadata res) = length (recorded code sb) /\
  Metadata.mcpToolCallCount (ToolOutput.metadata res) =
    length (filter (fun tc => Call.isMCP tc = true) (recorded code sb)) /\
  Metadata.localToolCallCount (ToolOutput.metadata res) =
    length (filter (fun tc => Call.isMCP tc = false) (recorded code sb)) /\
  NoDup (Metadata.toolsUsed (ToolOutput.metadata res)) /\
  (forall name,
      name ∈ Metadata.toolsUsed (ToolOutput.metadata res) <->
      exists tc, tc ∈ recorded code sb /\ Call.toolName tc = name) /\
  length (Metadata.sandboxToolCalls (ToolOutput.metadata res)) =
    length (recorded code sb) /\
  (forall i c,
      recorded code sb !! i = Some c ->
      exists entry,
        Metadata.sandboxToolCalls (ToolOutput.metadata res) !! i = Some entry /\
        Entry.toolName entry = Call.toolName c /\
        Entry.args entry = Call.args c /\
        Entry.result entry = Call.result c /\
        Entry.error entry = option_map message (Call.error c) /\
        Entry.isMCP entry = Call.isMCP c /\
        Entry.executionTimeMs entry = Call.executionTimeMs c).
Proof.
  intros Hres. destruct (execute_returns code sb res Hres) as [ms ->].
  cbn. set (tcs := recorded code sb).
  split; [apply filter_split_length |].
  split; [reflexivity |].
  split.
  { f_equal. apply list_filter_iff. intros tc.
    destruct (Call.isMCP tc); cbn; intuition discriminate. }
  split.
  { f_equal. apply list_filter_iff. intros tc.
    destruct (Call.isMCP tc); cbn; intuition discriminate. }
  split; [apply Set_spread_NoDup |].
  split.
  { intros name. rewrite Set_spread_elem, list_elem_of_fmap.
    split; intros (tc & H1 & H2); exists tc; split; auto. }
  split; [apply length_map |].
  intros i c Hi. exists (toEntry c).
  rewrite list_lookup_fmap, Hi. cbn. repeat split; reflexivity.
Qed.

End Completed.

(** ** The constructor: local registry and bridged names *)

Section Registry.
Implicit Types (tools : list (string * ToolDefinition.t)).
Implicit Types (acc : gmap string ToolDefinition.ToolExecuteFunction * list string).

Lemma register_names acc entry :
  (register acc entry).2 =
    (acc.2 ++ if is_local_tool entry then [entry.1] else [])%list.
Proof.
  unfold register, is_local_tool.
  destruct (ToolDefinition.execute entry.2) as [f |]; [| by rewrite app_nil_r].
  destruct (is_mcp_name entry.1); cbn; [by rewrite app_nil_r | reflexivity].
Qed.

Lemma fold_register_names tools acc :
  (fold_left register tools acc).2 =
    (acc.2 ++ map fst (filter (fun entry => is_local_tool entry) tools))%list.
Proof.
  revert acc. induction tools as [| entry tools IH]; intros acc.
  - cbn. by rewrite app_nil_r.
  - rewrite filter_cons.
    change (fold_left register (entry :: tools) acc)
      with (fold_left register tools (register acc entry)).
    rewrite IH, register_names.
    destruct (is_local_tool entry); cbn.
    + by rewrite <- app_assoc.
    + by rewrite app_nil_r.
Qed.

Lemma register_lookup acc entry name :
  (register acc entry).1 !! name =
    if decide (entry.1 = name /\ is_local_tool entry = true)
    then ToolDefinition.execute entry.2
    else acc.1 !! name.
Proof.
  unfold register, is_local_tool.
  destruct (ToolDefinition.execute entry.2) as [f |].
  - destruct (is_mcp_name entry.1); cbn.
    + rewrite decide_False by (intros [_ ?]; discriminate). reflexivity.
    + destruct (decide (entry.1 = name)) as [<- | Hne].
      * rewrite decide_True by done. apply lookup_insert_eq.
      * rewrite decide_False by tauto. by apply lookup_insert_ne.
  - rewrite decide_False by (intros [_ ?]; discriminate). reflexivity.
Qed.

(** The loop does not touch a name that is not among the entries. *)
Lemma fold_register_other tools acc name :
  name ∉ map fst tools ->
  (fold_left register tools acc).1 !! name = acc.1 !! name.
Proof.
  revert acc. induction tools as [| entry tools IH]; intros acc Hout; cbn; [done |].
  cbn in Hout. apply not_elem_of_cons in Hout as [Hne Hout].
  rewrite IH by exact Hout. rewrite register_lookup.
  rewrite decide_False; [reflexivity | intros [? _]; congruence].
Qed.

(** Whatever the registry holds came with the accumulator or from a local
    tool of the set. *)
Lemma fold_register_sound tools acc name f :
  (fold_left register tools acc).1 !! name = Some f ->
  acc.1 !! name = Some f \/
  exists toolDef,
    (name, toolDef) ∈ tools /\ ToolDefinition.execute toolDef = Some f /\
    is_mcp_name name = false.
Proof.
  revert acc. induction tools as [| [n d] tools IH]; intros acc Hf; cbn in Hf.
  - by left.
  - apply IH in Hf as [Hf | (toolDef & Hin & Hexec & Hname)].
    + rewrite register_lookup in Hf. cbn in Hf.
      destruct (decide (n = name /\ is_local_tool (n, d) = true)) as [[<- Hloc] |].
      * right. exists d. split; [left |]. split; [exact Hf |].
        unfold is_local_tool in Hloc. cbn [fst snd] in Hloc. rewrite Hf in Hloc.
        by destruct (is_mcp_name n).
      * by left.
    + right. exists toolDef. split; [by right | done].
Qed.

(** Every local tool of a set with distinct names is in the registry. *)
Lemma fold_register_complete tools acc name toolDef f :
  NoDup (map fst tools) ->
  (name, toolDef) ∈ tools ->
  ToolDefinition.execute toolDef = Some f ->
  is_mcp_name name = false ->
  (fold_left register tools acc).1 !! name = Some f.
Proof.
  revert acc. induction tools as [| [n d] tools IH]; intros acc Hnd Hin Hexec Hname.
  - by apply elem_of_nil in Hin.
  - cbn in Hnd. apply NoDup_cons in Hnd as [Hfresh Hnd].
    apply elem_of_cons in Hin as [Heq | Hin]; cbn.
    + injection Heq as <- <-.
      rewrite fold_register_other by exact Hfresh.
      rewrite register_lookup. cbn.
      rewrite decide_True; [exact Hexec |].
      split; [reflexivity |]. unfold is_local_tool. cbn [fst snd].
      by rewrite Hexec, Hname.
    + by apply (IH _ Hnd Hin).
Qed.

Lemma mcpToolNames_constructor tools timeout :
  mcpToolNames (constructor tools timeout) =
    map fst (filter (fun entry => is_mcp_name entry.1) tools).
Proof.
  unfold constructor, MCPBridge.createMCPBridge; cbn.
  by destruct (filter _ tools).
Qed.

(** C9: the constructor puts into the local registry exactly the tools of
    the set that have an [execute] function and a name that does not
    start with ['mcp_'], and lists their names in the order of the set;
    no local name is a bridged name; [getAllToolNames] is the local names
    followed by the bridged names. *)
Theorem constructor_separates_local_and_bridged tools timeout :
  NoDup (map fst tools) ->
  localToolNames (constructor tools timeout) =
    map fst (filter (fun entry => is_local_tool entry) tools) /\
  (forall name f,
      toolRegistry (constructor tools timeout) !! name = Some f <->
      exists toolDef,
        (name, toolDef) ∈ tools /\ ToolDefinition.execute toolDef = Some f /\
        is_mcp_name name = false) /\
  (forall name,
      name ∈ localToolNames (constructor tools timeout) ->
      name ∉ mcpToolNames (constructor tools timeout)) /\
  getAllToolNames (constructor tools timeout) =
    (localToolNames (constructor tools timeout) ++
     mcpToolNames (constructor tools timeout))%list.
Proof.
  intros Hnd.
  assert (Hnames : localToolNames (constructor tools timeout) =
                   map fst (filter (fun entry => is_local_tool entry) tools)).
  { unfold constructor; cbn. by rewrite fold_register_names. }
  split; [exact Hnames |]. split; [| split; [| reflexivity]].
  - intros name f. unfold constructor; cbn. split.
    + intros Hf. apply fold_register_sound in Hf as [Hf | Hf]; [| exact Hf].
      cbn in Hf. by rewrite lookup_empty in Hf.
    + intros (toolDef & Hin & Hexec & Hname).
      by apply (fold_register_complete tools _ name toolDef f).
  - intros name. rewrite Hnames, mcpToolNames_constructor.
    rewrite !list_elem_of_fmap.
    intros ([n d] & -> & Hloc%list_elem_of_filter) ([n' d'] & Heq & Hmcp%list_elem_of_filter).
    destruct Hloc as [Hloc _]. destruct Hmcp as [Hmcp _].
    unfold is_local_tool in Hloc. cbn [fst snd] in *. subst n'.
    destruct (ToolDefinition.execute d); [| done].
    by destruct (is_mcp_name n).
Qed.

End Registry.

(** ** What the serialization statement yields *)

Section Salvaging.
Context {engine : Engine}.








End Salvaging.

Section Serialized.
Context {engine : Engine} {model : Model}.



End Serialized.

(** * Examples *)

Section Examples.
Import Samples.

(** A script that makes no call and returns nothing. *)
Lemma no_call_no_return_example :
  exists res,
    (ProgrammaticToolCaller.execute
       (engine := sample_engine) (model := scripted no_call_no_return)
       "const x = 1;" new_sandbox).1 = Normal res /\
    ToolOutput.result res =
      obj [("message", JStr "Code executed but returned no result");
           ("success", JBool true)].
Proof.
  apply (no_call_no_return_result
           (engine := sample_engine) (model := scripted no_call_no_return)
           "const x = 1;" new_sandbox 1%N JUndefined);
    [reflexivity | reflexivity | reflexivity | reflexivity].
Defined.

(** A single call whose result is a non-empty string, and a single call
    that failed and so has no result. *)
Lemma single_call_example :
  (exists res,
      (ProgrammaticToolCaller.execute
         (engine := sample_engine) (model := scripted (one_call_no_return (JStr "A")))
         "await a();" new_sandbox).1 = Normal res /\
      ToolOutput.result res = JStr "A") /\
  (exists res,
      (ProgrammaticToolCaller.execute
         (engine := sample_engine) (model := scripted one_failed_call_no_return)
         "try { await a(); } catch (e) { }" new_sandbox).1 = Normal res /\
      ToolOutput.result res =
        obj [("success", JBool false); ("message", JStr "Tool executed")]).
Proof.
  split.
  - destruct (single_call_result_or_fallback
                (engine := sample_engine)
                (model := scripted (one_call_no_return (JStr "A")))
                "await a();" new_sandbox 40%N JUndefined (local_call "a" (JStr "A")))
      as (res & Hres & Htruthy & _);
      [reflexivity | reflexivity | reflexivity | reflexivity |].
    exists res. split; [exact Hres | apply Htruthy; reflexivity].
  - destruct (single_call_result_or_fallback
                (engine := sample_engine) (model := scripted one_failed_call_no_return)
                "try { await a(); } catch (e) { }" new_sandbox 9%N JUndefined
                (failed_call "a" "not found"))
      as (res & Hres & _ & Hmissing);
      [reflexivity | reflexivity | reflexivity | reflexivity |].
    exists res. split; [exact Hres | apply Hmissing; reflexivity].
Defined.

(** C1 as stated fails: a single call whose recorded result is [null]
    does not give [null] as the result of the tool, but the fallback
    object. *)
Lemma single_call_null_result_replaced :
  settles (runScript (Model := scripted (one_call_no_return JNull)) "await a();") =
    Some (40%N, Resolves JUndefined) /\
  recorded (model := scripted (one_call_no_return JNull)) "await a();" new_sandbox =
    [local_call "a" JNull] /\
  (ProgrammaticToolCaller.execute
     (engine := sample_engine) (model := scripted (one_call_no_return JNull))
     "await a();" new_sandbox).1 =
    Normal
      {| ToolOutput.result :=
           obj [("success", JBool true); ("message", JStr "Tool executed")];
         ToolOutput.metadata :=
           buildMetadata [local_call "a" JNull]
             (estimate (model := scripted (one_call_no_return JNull))
                [local_call "a" JNull]) 40%N |} /\
  obj [("success", JBool true); ("message", JStr "Tool executed")] <>
    Call.result (local_call "a" JNull).
Proof.
  repeat split; discriminate.
Qed.

(** Scenario B: three calls, no return.  And two calls, the second of
    which failed: its entry says so. *)
Lemma several_calls_example :
  (exists res results lastCall,
      (ProgrammaticToolCaller.execute
         (engine := sample_engine) (model := scripted three_calls_no_return)
         "await Promise.all([a(), b(), mcp_c()]);" new_sandbox).1 = Normal res /\
      get_property (ToolOutput.result res) "results" = JArr results /\
      length results = 3 /\
      lastCall = mcp_call "mcp_c" (JStr "C") /\
      get_property (ToolOutput.result res) "lastResult" = JStr "C") /\
  (exists res results,
      (ProgrammaticToolCaller.execute
         (engine := sample_engine)
         (model := scripted two_calls_one_failed_no_return)
         "await a(); try { await b(); } catch (e) { }" new_sandbox).1 = Normal res /\
      ToolOutput.result res =
        obj [("message", JStr "Executed 2 tool calls");
             ("results", JArr results);
             ("lastResult", JUndefined)] /\
      results !! 0 =
        Some (obj [("tool", JStr "a"); ("success", JBool true);
                   ("result", JStr "A")]) /\
      results !! 1 =
        Some (obj [("tool", JStr "b"); ("success", JBool false);
                   ("result", JUndefined)]) /\
      length results = 2).
Proof.
  split.
  - destruct (several_calls_summary
                (engine := sample_engine) (model := scripted three_calls_no_return)
                "await Promise.all([a(), b(), mcp_c()]);" new_sandbox 150%N JUndefined)
      as (res & results & lastCall & Hres & _ & Hresults & Hlen & _ & Hlast & HlastResult);
      [reflexivity | reflexivity | reflexivity | cbn; lia |].
    exists res, results, lastCall.
    injection Hlast as <-.
    repeat split; assumption.
  - destruct (several_calls_summary
                (engine := sample_engine)
                (model := scripted two_calls_one_failed_no_return)
                "await a(); try { await b(); } catch (e) { }" new_sandbox 60%N
                JUndefined)
      as (res & results & lastCall & Hres & Hsummary & _ & Hlen & Hentries & Hlast & _);
      [reflexivity | reflexivity | reflexivity | cbn; lia |].
    exists res, results.
    injection Hlast as <-.
    split; [exact Hres |]. split; [exact Hsummary |].
    split; [exact (Hentries 0 (local_call "a" (JStr "A")) eq_refl) |].
    split; [exact (Hentries 1 (failed_call "b" "down") eq_refl) | exact Hlen].
Defined.

(** A script that throws after one completed call. *)
Lemma script_error_example :
  (ProgrammaticToolCaller.execute
     (engine := sample_engine) (model := scripted throws_after_one_call)
     "await a(); throw new Error('boom');" new_sandbox).1 =
    Throw (Error "Code execution failed: boom") /\
  trace (Sandbox.execute (model := scripted throws_after_one_call)
           "await a(); throw new Error('boom');" new_sandbox).2 =
    [local_call "a" (JStr "A")] /\
  trace (ProgrammaticToolCaller.execute
           (engine := sample_engine) (model := scripted throws_after_one_call)
           "await a(); throw new Error('boom');" new_sandbox).2 = [] /\
  invocations (ProgrammaticToolCaller.execute
                 (engine := sample_engine) (model := scripted throws_after_one_call)
                 "await a(); throw new Error('boom');" new_sandbox).2 =
    [InvExecute "await a(); throw new Error('boom');"; InvReset].
Proof.
  apply (script_error_propagates
           (engine := sample_engine) (model := scripted throws_after_one_call)
           "await a(); throw new Error('boom');" new_sandbox 12%N (Error "boom"));
    [reflexivity | reflexivity].
Defined.

(** C3 as stated fails in its last part: after the tool call has thrown,
    the record of the call the script had completed is no longer in the
    sandbox, and the error thrown carries a message only. *)
Lemma records_gone_after_failure :
  settles (runScript (Model := scripted throws_after_one_call)
             "await a(); throw new Error('boom');") =
    Some (12%N, Rejects (Error "boom")) /\
  recorded (model := scripted throws_after_one_call)
    "await a(); throw new Error('boom');" new_sandbox =
    [local_call "a" (JStr "A")] /\
  ProgrammaticToolCaller.execute
    (engine := sample_engine) (model := scripted throws_after_one_call)
    "await a(); throw new Error('boom');" new_sandbox =
    (Throw (Error "Code execution failed: boom"),
     {| trace := [];
        invocations := [InvExecute "await a(); throw new Error('boom');"; InvReset] |}) /\
  trace (ProgrammaticToolCaller.execute
           (engine := sample_engine) (model := scripted throws_after_one_call)
           "await a(); throw new Error('boom');" new_sandbox).2 <>
    recorded (model := scripted throws_after_one_call)
      "await a(); throw new Error('boom');" new_sandbox.
Proof.
  repeat split; discriminate.
Qed.

(** Scenario C: the budget is 25000 ms and the script needs 26000 ms. *)
Lemma timeout_example :
  (ProgrammaticToolCaller.execute
     (engine := sample_engine) (model := scripted runs_26_seconds)
     "await slow();" new_sandbox).1 =
    Throw (Error "Code execution failed: Code execution timeout after 25 seconds") /\
  (forall res,
      (ProgrammaticToolCaller.execute
         (engine := sample_engine) (model := scripted runs_26_seconds)
         "await slow();" new_sandbox).1 <> Normal res) /\
  invocations (ProgrammaticToolCaller.execute
                 (engine := sample_engine) (model := scripted runs_26_seconds)
                 "await slow();" new_sandbox).2 =
    [InvExecute "await slow();"; InvReset].
Proof.
  apply (timeout_surfaces
           (engine := sample_engine) (model := scripted runs_26_seconds)
           "await slow();" new_sandbox).
  unfold exceeds_budget. cbn. lia.
Defined.

(** A sandbox holding two stale records, a failing run, then a run
    without calls. *)
Lemma reset_example :
  trace (ProgrammaticToolCaller.execute
           (engine := sample_engine) (model := scripted no_call_no_return)
           "const x = 1;" used_sandbox).2 = [] /\
  exists res,
    (ProgrammaticToolCaller.execute
       (engine := sample_engine) (model := scripted no_call_no_return)
       "const y = 2;"
       (ProgrammaticToolCaller.execute
          (engine := sample_engine) (model := scripted no_call_no_return)
          "const x = 1;" used_sandbox).2).1 = Normal res /\
    Metadata.toolCallCount (ToolOutput.metadata res) = 0 /\
    Metadata.sandboxToolCalls (ToolOutput.metadata res) = [].
Proof.
  destruct (reset_on_every_path
              (engine := sample_engine) (model := scripted no_call_no_return)
              "const x = 1;" used_sandbox) as (_ & Hempty & Hnext).
  split; [exact Hempty |].
  apply (Hnext "const y = 2;" 1%N JUndefined); reflexivity.
Defined.

(** Three calls, one of them bridged, two with the same name. *)
Lemma token_savings_example :
  exists res,
    (ProgrammaticToolCaller.execute
       (engine := sample_engine) (model := scripted returns_a_pair)
       "const r = await a(); return [r, r];" new_sandbox).1 = Normal res /\
    Metadata.totalTokensSaved (ToolOutput.metadata res) = 240 /\
    Metadata.totalTokensSaved (ToolOutput.metadata res) =
      Breakdown.intermediateResults
        (Metadata.tokenSavingsBreakdown (ToolOutput.metadata res)) +
      Breakdown.roundTripContext
        (Metadata.tokenSavingsBreakdown (ToolOutput.metadata res)) +
      Breakdown.toolCallOverhead
        (Metadata.tokenSavingsBreakdown (ToolOutput.metadata res)) +
      Breakdown.llmDecisions
        (Metadata.tokenSavingsBreakdown (ToolOutput.metadata res)).
Proof.
  eexists. split; [reflexivity |]. split; [reflexivity |].
  apply (total_is_sum_of_components
           (engine := sample_engine) (model := scripted returns_a_pair)
           "const r = await a(); return [r, r];" new_sandbox).
  reflexivity.
Defined.

Lemma metadata_example :
  exists res,
    (ProgrammaticToolCaller.execute
       (engine := sample_engine) (model := scripted returns_a_pair)
       "const r = await a(); return [r, r];" new_sandbox).1 = Normal res /\
    Metadata.toolCallCount (ToolOutput.metadata res) = 3 /\
    Metadata.localToolCallCount (ToolOutput.metadata res) = 2 /\
    Metadata.mcpToolCallCount (ToolOutput.metadata res) = 1 /\
    Metadata.toolsUsed (ToolOutput.metadata res) = ["a"; "mcp_c"] /\
    Metadata.toolCallCount (ToolOutput.metadata res) =
      Metadata.localToolCallCount (ToolOutput.metadata res) +
      Metadata.mcpToolCallCount (ToolOutput.metadata res) /\
    NoDup (Metadata.toolsUsed (ToolOutput.metadata res)).
Proof.
  eexists. split; [reflexivity |].
  do 4 (split; [reflexivity |]).
  destruct (metadata_partitions_trace
              (engine := sample_engine) (model := scripted returns_a_pair)
              "const r = await a(); return [r, r];" new_sandbox _ eq_refl)
    as (Hsum & _ & _ & _ & Hnodup & _).
  split; [exact Hsum | exact Hnodup].
Defined.

Lemma constructor_example :
  NoDup (map fst sample_tools) /\
  localToolNames (constructor sample_tools 30000%N) = ["getUser"; "calculateAverage"] /\
  mcpToolNames (constructor sample_tools 30000%N) = ["mcp_firecrawl_scrape"] /\
  toolRegistry (constructor sample_tools 30000%N) !! "getUser" = Some echo /\
  toolRegistry (constructor sample_tools 30000%N) !! "mcp_firecrawl_scrape" = None /\
  toolRegistry (constructor sample_tools 30000%N) !! "schemaOnly" = None /\
  (forall name,
      name ∈ localToolNames (constructor sample_tools 30000%N) ->
      name ∉ mcpToolNames (constructor sample_tools 30000%N)) /\
  getAllToolNames (constructor sample_tools 30000%N) =
    ["getUser"; "calculateAverage"; "mcp_firecrawl_scrape"].
Proof.
  assert (Hnd : NoDup (map fst sample_tools)).
  { apply (bool_decide_unpack _). vm_compute. exact I. }
  destruct (constructor_separates_local_and_bridged sample_tools 30000%N Hnd)
    as (Hnames & Hreg & Hdisj & Hall).
  split; [exact Hnd |].
  split; [exact Hnames |].
  split; [reflexivity |].
  split.
  { apply Hreg. exists (tool (Some echo)).
    split; [constructor | split; reflexivity]. }
  split; [reflexivity |].
  split; [reflexivity |].
  split; [exact Hdisj | exact Hall].
Defined.



End Examples.

(** * Further properties of the tool wrapper *)

(** ** The names in the metadata *)

Section ToolNames.
Context {engine : Engine} {model : Model}.

Lemma filter_isMCP_elem (tcs : list ToolCallRecord) tc :
  tc ∈ filter (fun tc => Call.isMCP tc) tcs <-> tc ∈ tcs /\ Call.isMCP tc = true.
Proof.
  rewrite list_elem_of_filter. destruct (Call.isMCP tc); cbn; intuition discriminate.
Qed.

Lemma filter_local_elem (tcs : list ToolCallRecord) tc :
  tc ∈ filter (fun tc => ¬ Call.isMCP tc) tcs <-> tc ∈ tcs /\ Call.isMCP tc = false.
Proof.
  rewrite list_elem_of_filter. destruct (Call.isMCP tc); cbn; intuition discriminate.
Qed.

(** X1. For every completed run, [mcpToolsUsed] holds the names of the calls
    flagged [isMCP], [localToolsUsed] the names of the others, each
    without duplicates, and a name is in [toolsUsed] exactly when it is
    in one of the two. *)
Theorem tools_used_split code sb res :
  (ProgrammaticToolCaller.execute code sb).1 = Normal res ->
  NoDup (Metadata.mcpToolsUsed (ToolOutput.metadata res)) /\
  NoDup (Metadata.localToolsUsed (ToolOutput.metadata res)) /\
  (forall name,
      name ∈ Metadata.mcpToolsUsed (ToolOutput.metadata res) <->
      exists tc,
        tc ∈ recorded code sb /\ Call.isMCP tc = true /\ Call.toolName tc = name) /\
  (forall name,
      name ∈ Metadata.localToolsUsed (ToolOutput.metadata res) <->
      exists tc,
        tc ∈ recorded code sb /\ Call.isMCP tc = false /\ Call.toolName tc = name) /\
  (forall name,
      name ∈ Metadata.toolsUsed (ToolOutput.metadata res) <->
      name ∈ Metadata.localToolsUsed (ToolOutput.metadata res) \/
      name ∈ Metadata.mcpToolsUsed (ToolOutput.metadata res)).
Proof.
  intros Hres. destruct (execute_returns code sb res Hres) as [ms ->].
  cbn. set (tcs := recorded code sb).
  assert (Hmcp : forall name,
             name ∈ Set_spread (map Call.toolName (filter (fun tc => Call.isMCP tc) tcs)) <->
             exists tc, tc ∈ tcs /\ Call.isMCP tc = true /\ Call.toolName tc = name).
  { intros name. rewrite Set_spread_elem, list_elem_of_fmap. split.
    - intros (tc & -> & [Hin Hflag]%filter_isMCP_elem). eauto.
    - intros (tc & Hin & Hflag & <-). exists tc. split; [reflexivity |].
      by apply filter_isMCP_elem. }
  assert (Hlocal : forall name,
             name ∈ Set_spread (map Call.toolName (filter (fun tc => ¬ Call.isMCP tc) tcs)) <->
             exists tc, tc ∈ tcs /\ Call.isMCP tc = false /\ Call.toolName tc = name).
  { intros name. rewrite Set_spread_elem, list_elem_of_fmap. split.
    - intros (tc & -> & [Hin Hflag]%filter_local_elem). eauto.
    - intros (tc & Hin & Hflag & <-). exists tc. split; [reflexivity |].
      by apply filter_local_elem. }
  split; [apply Set_spread_NoDup |].
  split; [apply Set_spread_NoDup |].
  split; [exact Hmcp |]. split; [exact Hlocal |].
  intros name. rewrite Hmcp, Hlocal, Set_spread_elem, list_elem_of_fmap. split.
  - intros (tc & -> & Hin). destruct (Call.isMCP tc) eqn:Hflag; eauto 6.
  - intros [(tc & Hin & _ & <-) | (tc & Hin & _ & <-)]; eauto.
Qed.

End ToolNames.

(** ** The result of a script that returns a value can be serialized *)

Section JsonInduction.
Variable P : Json -> Prop.
Hypothesis Hnull : P JsonNull.
Hypothesis Hbool : forall b, P (JsonBool b).
Hypothesis Hnum : forall x, P (JsonNum x).
Hypothesis Hstr : forall s, P (JsonStr s).
Hypothesis Harr : forall elems, Forall P elems -> P (JsonArr elems).
Hypothesis Hobj : forall members, Forall (fun kv => P kv.2) members -> P (JsonObj members).

Lemma Json_induction : forall j, P j.
Proof.
  fix IH 1. intros [| b | x | s | elems | members].
  - exact Hnull.
  - apply Hbool.
  - apply Hnum.
  - apply Hstr.
  - apply Harr. induction elems as [| j elems IHelems]; constructor.
    + apply IH.
    + exact IHelems.
  - apply Hobj. induction members as [| [k j] members IHmembers]; constructor.
    + apply IH.
    + exact IHmembers.
Qed.

End JsonInduction.

Lemma stringifies_serializes v : stringifies v -> serializes v.
Proof. intros [text H]. by exists (Some text). Qed.

Lemma array_stringifies elems :
  Forall serializes elems -> stringifies (JArr elems).
Proof.
  unfold stringifies, JSON_stringify. intros Hall.
  induction Hall as [| v elems [j Hv] _ [text IH]].
  - by exists (JsonArr []).
  - cbn in IH |- *. rewrite Hv. cbn.
    match goal with
    | H : context [cbind (?f elems)] |- _ => destruct (f elems) as [js | e]
    end; [| discriminate].
    cbn. eauto.
Qed.

Lemma object_stringifies ordinary props :
  Forall (fun kv => serializes kv.2) props -> stringifies (JObj ordinary props).
Proof.
  unfold stringifies, JSON_stringify. intros Hall.
  induction Hall as [| [k v] props [j Hv] _ [text IH]].
  - by exists (JsonObj []).
  - cbn in IH, Hv |- *. rewrite Hv. cbn.
    match goal with
    | H : context [cbind (?f props)] |- _ => destruct (f props) as [ms | e]
    end; [| discriminate].
    cbn. eauto.
Qed.

(** A structural copy can be copied again. *)
Lemma revive_stringifies j : stringifies (revive j).
Proof.
  induction j as [| b | x | s | elems IH | members IH] using Json_induction.
  - by exists JsonNull.
  - by exists (JsonBool b).
  - destruct x; cbn; unfold stringifies; cbn; eauto.
  - by exists (JsonStr s).
  - cbn. apply array_stringifies. apply Forall_fmap.
    eapply Forall_impl; [exact IH |]. intros j. apply stringifies_serializes.
  - cbn. apply object_stringifies.
    induction IH as [| [k j] members Hj _ IHmembers]; constructor.
    + apply stringifies_serializes, Hj.
    + exact IHmembers.
Qed.

Lemma roundtrip_stringifies v copy :
  JSON_roundtrip v = Normal copy -> stringifies copy.
Proof.
  unfold JSON_roundtrip. destruct (JSON_stringify v) as [[text |] | e]; cbn; try discriminate.
  intros [= <-]. apply revive_stringifies.
Qed.

Section SalvagedSerializes.
Context {engine : Engine}.

Lemma salvaged_serializes value v : salvaged value = Normal v -> serializes v.
Proof.
  unfold salvaged. destruct (JSON_roundtrip value) as [copy | e] eqn:Hcopy; cbn.
  - intros [= <-]. eapply stringifies_serializes, roundtrip_stringifies, Hcopy.
  - destruct (String_ value) as [s | e']; cbn; [| discriminate].
    intros [= <-]. by exists (Some (JsonStr s)).
Qed.

Lemma overwrite_serializes key v props :
  serializes v ->
  Forall (fun kv => serializes kv.2) props ->
  Forall (fun kv => serializes kv.2) (overwrite key v props).
Proof.
  intros Hv Hall. induction Hall as [| [k w] props Hw Hall IH]; cbn; [constructor |].
  destruct (String.eqb k key); constructor; assumption.
Qed.

(** An object whose properties serialize keeps that through an
    assignment of a value that serializes. *)
Lemma set_property_plain o key v :
  plain_object o -> serializes v -> plain_object (set_property o key v).
Proof.
  intros (ordinary & props & -> & Hall) Hv. unfold set_property.
  destruct (ordinary && String.eqb key "__proto__").
  - destruct v; first [by exists ordinary, props | by exists false, props].
  - destruct (has_property props key).
    + exists ordinary, (overwrite key v props). split; [reflexivity |].
      by apply overwrite_serializes.
    + exists ordinary, (props ++ [(key, v)])%list. split; [reflexivity |].
      apply Forall_app. split; [exact Hall |]. by constructor.
Qed.

Lemma for_of_salvage_plain entries o v :
  plain_object o -> for_of entries salvage o = Normal v -> plain_object v.
Proof.
  revert o. induction entries as [| entry entries IH]; intros o Ho; cbn [for_of].
  - by intros [= <-].
  - unfold salvage at 1.
    destruct (salvaged entry.2) as [w | e] eqn:Hw; cbn [cbind]; [| discriminate].
    apply IH, set_property_plain; [exact Ho |]. eapply salvaged_serializes, Hw.
Qed.

(** When the script returns a value other than [undefined] and [null],
    the result handed back can always be serialized: whatever branch of
    the serialization statement produced it, [JSON.stringify] accepts
    it. *)
Theorem returned_value_stringifies output toolCalls v :
  is_nullish output = false ->
  serializeOutput output toolCalls = Normal v ->
  stringifies v.
Proof.
  intros Hnull. unfold serializeOutput. rewrite Hnull.
  destruct (JSON_roundtrip output) as [copy | e] eqn:Hcopy; cbn.
  { intros [= <-]. eapply roundtrip_stringifies, Hcopy. }
  destruct (is_object output) eqn:Hobj.
  - destruct (Object_keys_object output Hobj) as [keys Hkeys].
    destruct (Object_entries output) as [entries | e1] eqn:Hentries; cbn.
    + destruct (for_of entries salvage (obj [])) as [safe | e2] eqn:Hsafe; cbn.
      * intros [= <-].
        destruct (for_of_salvage_plain entries (obj []) safe) as (o & props & -> & Hall).
        -- exists true, []. split; [reflexivity | constructor].
        -- exact Hsafe.
        -- by apply object_stringifies.
      * rewrite Hkeys. cbn. intros [= <-].
        apply object_stringifies. repeat constructor; cbn.
        -- by exists (Some (JsonStr "Output contained non-serializable data")).
        -- by exists (Some (JsonStr (typeof output))).
        -- apply stringifies_serializes, array_stringifies, Forall_fmap.
           apply Forall_forall. intros key _. by exists (Some (JsonStr key)).
    + rewrite Hkeys. cbn. intros [= <-].
      apply object_stringifies. repeat constructor; cbn.
      -- by exists (Some (JsonStr "Output contained non-serializable data")).
      -- by exists (Some (JsonStr (typeof output))).
      -- apply stringifies_serializes, array_stringifies, Forall_fmap.
         apply Forall_forall. intros key _. by exists (Some (JsonStr key)).
  - destruct (String_ output) as [s | e1]; cbn; [| discriminate].
    intros [= <-]. apply object_stringifies. repeat constructor; cbn.
    + by exists (Some (JsonStr s)).
    + by exists (Some (JsonStr (typeof output))).
Qed.

End SalvagedSerializes.

Section ExplicitReturn.
Context {engine : Engine} {model : Model}.

(** X2. A script that returns a value other than [undefined] and [null] in
    time gets a result that [JSON.stringify] accepts: it neither throws on
    it nor returns [undefined], whatever the script returned. *)
Theorem explicit_return_stringifies code sb ms out :
  settles (runScript code) = Some (ms, Resolves out) ->
  (ms < 25000)%N ->
  is_nullish out = false ->
  exists res,
    (ProgrammaticToolCaller.execute code sb).1 = Normal res /\
    stringifies (ToolOutput.result res).
Proof.
  intros Hrun Hlt Hnull.
  destruct (execute_resolved code sb ms out Hrun Hlt) as (v & Hv & Hexec).
  rewrite Hexec. eexists. split; [reflexivity |]. cbn.
  eapply returned_value_stringifies; eassumption.
Qed.

End ExplicitReturn.

(** ** The enhanced tool set *)

Section EnhancedSet.
Import Enhanced.

Lemma lookup_define_eq {V} (entries : list (string * V)) key v :
  lookup (define entries key v) key = Some v.
Proof.
  induction entries as [| [k w] entries IH]; cbn.
  - by rewrite String.eqb_refl.
  - destruct (String.eqb_spec k key) as [-> | Hne]; cbn.
    + by rewrite String.eqb_refl.
    + destruct (String.eqb_spec k key); [contradiction | exact IH].
Qed.

Lemma lookup_define_ne {V} (entries : list (string * V)) key v name :
  name <> key -> lookup (define entries key v) name = lookup entries name.
Proof.
  intros Hne. induction entries as [| [k w] entries IH]; cbn.
  - destruct (String.eqb_spec key name); [congruence | reflexivity].
  - destruct (String.eqb_spec k key) as [-> | Hk]; cbn.
    + destruct (String.eqb_spec key name); [congruence | reflexivity].
    + destruct (String.eqb_spec k name); [reflexivity | exact IH].
Qed.

Lemma keys_define {V} (entries : list (string * V)) key v :
  map fst (define entries key v) =
    if decide (key ∈ map fst entries) then map fst entries
    else (map fst entries ++ [key])%list.
Proof.
  induction entries as [| [k w] entries IH]; cbn.
  - rewrite decide_False; [reflexivity | apply not_elem_of_nil].
  - destruct (String.eqb_spec k key) as [-> | Hk]; cbn.
    + rewrite decide_True; [reflexivity | left].
    + rewrite IH. destruct (decide (key ∈ map fst entries)) as [Hin | Hout].
      * rewrite decide_True; [reflexivity | by right].
      * rewrite decide_False; [reflexivity |].
        intros [? | ?]%elem_of_cons; congruence.
Qed.

Lemma lookup_map_Given (tools : list (string * ToolDefinition.t)) name :
  lookup (map (fun entry => (entry.1, Given entry.2)) tools) name =
    option_map Given (lookup tools name).
Proof.
  induction tools as [| [k d] tools IH]; cbn; [reflexivity |].
  destruct (String.eqb k name); [reflexivity | exact IH].
Qed.

Context {engine : Engine} {model : Model}.

(** X3. In the enhanced tool set [code_execution] is always the tool made by
    the wrapper, also when the tools given already had one of that name;
    every other name maps to the tool given under it; the order of the
    tools is kept, with [code_execution] last when it is new; and the
    names stay distinct. *)
Theorem enhanced_tool_set (this : ProgrammaticToolCaller.t) :
  lookup (createEnhancedToolSet this) "code_execution" =
    Some (CodeExecution (createCodeExecutionTool this)) /\
  (forall name,
      name <> "code_execution" ->
      lookup (createEnhancedToolSet this) name =
        option_map Given (lookup (tools this) name)) /\
  map fst (createEnhancedToolSet this) =
    (if decide ("code_execution" ∈ map fst (tools this))
     then map fst (tools this)
     else (map fst (tools this) ++ ["code_execution"])%list) /\
  (NoDup (map fst (tools this)) -> NoDup (map fst (createEnhancedToolSet this))).
Proof.
  unfold createEnhancedToolSet.
  assert (Hkeys : map fst (map (fun entry : string * ToolDefinition.t =>
                                  (entry.1, Given entry.2)) (tools this)) =
                  map fst (tools this)).
  { rewrite map_map. reflexivity. }
  split; [apply lookup_define_eq |].
  split.
  { intros name Hne. rewrite lookup_define_ne by exact Hne. apply lookup_map_Given. }
  rewrite keys_define, Hkeys.
  split; [reflexivity |].
  intros Hnd. destruct (decide ("code_execution" ∈ map fst (tools this))) as [Hin | Hout].
  - exact Hnd.
  - apply NoDup_app. split; [exact Hnd |]. split.
    + intros x Hx ->%list_elem_of_singleton. contradiction.
    + apply NoDup_singleton.
Qed.

(** X4. The tool names the chat route puts into the system prompt are the
    names of the tools given, without [code_execution]; [mcpTools] are
    those of them that begin with ['mcp_'] and [baseTools] those that do
    not, each in the order of the tool set, so that the two lists split
    the names; and every local tool the wrapper makes callable from a
    script, other than one named [code_execution], is among
    [baseTools]. *)
Theorem prompt_tool_names (tools : list (string * ToolDefinition.t)) timeout :
  ChatRoute.toolNames (withProgrammaticCalling tools timeout).1 =
    filter (fun name => name <> "code_execution") (map fst tools) /\
  (ChatRoute.mcpTools (ChatRoute.toolNames (withProgrammaticCalling tools timeout).1) ++
   ChatRoute.baseTools (ChatRoute.toolNames (withProgrammaticCalling tools timeout).1))%list
    ≡ₚ ChatRoute.toolNames (withProgrammaticCalling tools timeout).1 /\
  (forall name,
      name ∈ localToolNames (withProgrammaticCalling tools timeout).2 ->
      name <> "code_execution" ->
      name ∈ ChatRoute.baseTools
               (ChatRoute.toolNames (withProgrammaticCalling tools timeout).1)) /\
  ChatRoute.mcpTools (ChatRoute.toolNames (withProgrammaticCalling tools timeout).1) =
    filter (fun name => String.prefix "mcp_" name = true)
      (filter (fun name => name <> "code_execution") (map fst tools)) /\
  ChatRoute.baseTools (ChatRoute.toolNames (withProgrammaticCalling tools timeout).1) =
    filter (fun name => String.prefix "mcp_" name = false)
      (filter (fun name => name <> "code_execution") (map fst tools)) /\
  (forall name,
      name ∈ ChatRoute.mcpTools
               (ChatRoute.toolNames (withProgrammaticCalling tools timeout).1) <->
      name ∈ map fst tools /\ name <> "code_execution" /\
      String.prefix "mcp_" name = true) /\
  (forall name,
      name ∈ ChatRoute.baseTools
               (ChatRoute.toolNames (withProgrammaticCalling tools timeout).1) <->
      name ∈ map fst tools /\ name <> "code_execution" /\
      String.prefix "mcp_" name = false).
Proof.
  assert (Hnames :
    ChatRoute.toolNames (withProgrammaticCalling tools timeout).1 =
      filter (fun name => name <> "code_execution") (map fst tools)).
  { unfold ChatRoute.toolNames, withProgrammaticCalling, createEnhancedToolSet. cbn.
    rewrite keys_define, map_map. cbn.
    destruct (decide ("code_execution" ∈ map fst tools)); [reflexivity |].
    rewrite filter_app, filter_cons, decide_False by tauto.
    by rewrite filter_nil, app_nil_r. }
  assert (Hmcp : forall names,
    ChatRoute.mcpTools names
    = filter (fun name => String.prefix "mcp_" name = true) names).
  { intros names. unfold ChatRoute.mcpTools, is_mcp_name.
    apply list_filter_iff. intros name. apply Is_true_true. }
  assert (Hbase : forall names,
    ChatRoute.baseTools names
    = filter (fun name => String.prefix "mcp_" name = false) names).
  { intros names. unfold ChatRoute.baseTools, is_mcp_name.
    apply list_filter_iff. intros name. apply Is_true_false. }
  split; [exact Hnames |]. split; [| split; [| split; [| split; [| split]]]].
  - unfold ChatRoute.mcpTools, ChatRoute.baseTools. apply filter_app_complement.
  - intros name Hlocal Hne. rewrite Hnames.
    unfold withProgrammaticCalling, constructor in Hlocal. cbn in Hlocal.
    rewrite fold_register_names in Hlocal. cbn in Hlocal.
    apply list_elem_of_fmap in Hlocal as ([n d] & -> & [Hloc Hin]%list_elem_of_filter).
    unfold ChatRoute.baseTools. apply list_elem_of_filter. split.
    + unfold is_local_tool in Hloc. cbn [fst snd] in *.
      destruct (ToolDefinition.execute d); [| done].
      destruct (is_mcp_name n); [done | by intros []].
    + apply list_elem_of_filter. split; [exact Hne |].
      apply list_elem_of_fmap. by exists (n, d).
  - by rewrite Hmcp, Hnames.
  - by rewrite Hbase, Hnames.
  - intros name. rewrite Hmcp, Hnames, !list_elem_of_filter. tauto.
  - intros name. rewrite Hbase, Hnames, !list_elem_of_filter. tauto.
Qed.

End EnhancedSet.

(** ** Tool documentation *)

Section Documented.
Import Builtins.
Import Documentation.
Context {engine : Engine}.

(** For parameters that are JSON data the logging of a turn goes
    through. *)
Lemma debugLog_returns docs entry : debugLog docs entry = Normal ().
Proof.
  unfold debugLog.
  destruct (is_mcp_name entry.1 && negb (existsb (String_includes "[DEBUG]") docs));
    [| reflexivity].
  destruct (ToolSchema.parameters entry.2) as [params |]; [| reflexivity].
  destruct (ToBoolean (revive params)); [| reflexivity].
  by destruct (revive_stringifies params) as [text ->].
Qed.

Lemma for_of_turn tools docs :
  ProgrammaticToolCaller.for_of tools turn docs
  = Normal (docs ++ flat_map toolDocs tools)%list.
Proof.
  revert docs. induction tools as [| entry tools IH]; intros docs.
  - cbn. by rewrite app_nil_r.
  - cbn [ProgrammaticToolCaller.for_of flat_map]. unfold turn at 1.
    rewrite debugLog_returns. cbn [cbind]. by rewrite IH, app_assoc.
Qed.

Lemma flat_map_bounds {A B : Type} (f : A -> list B) (l : list A) :
  (forall x, 1 <= length (f x) <= 2) ->
  length l <= length (flat_map f l) <= 2 * length l.
Proof.
  intros Hf. induction l as [| x l IH]; [cbn; lia |].
  cbn [flat_map length]. rewrite length_app. pose proof (Hf x). lia.
Qed.

(** X5. For tools whose [parameters], when they have any, are JSON data,
    [generateToolDocumentation] returns, also when reading a schema
    throws inside a [try] block: the documentation is the blocks joined
    by an empty line, and the blocks are, tool by tool in the order of
    the tool set, the line [name: description] -- with ['No description']
    for a description that is missing or empty -- followed by the block
    of the parameters when there is one.  So there are between [n] and
    [2n] blocks for [n] tools, and no tools give the empty string. *)
Theorem documentation_lists_every_tool (tools : list (string * ToolSchema.t)) :
  exists blocks,
    documentationBlocks tools = Normal blocks /\
    generateToolDocumentation tools
    = Normal (String.concat (newline ++ newline) blocks) /\
    blocks
    = flat_map
        (fun entry : string * ToolSchema.t =>
           (entry.1 ++ ": " ++
            match ToolDefinition.description (ToolSchema.definition entry.2) with
            | Some text => if String.eqb text "" then "No description" else text
            | None => "No description"
            end)
           :: match toolBlock entry.2 with
              | Some text => [text]
              | None => []
              end)
        tools /\
    map (fun entry : string * ToolSchema.t =>
           entry.1 ++ ": " ++
           match ToolDefinition.description (ToolSchema.definition entry.2) with
           | Some text => if String.eqb text "" then "No description" else text
           | None => "No description"
           end) tools `sublist_of` blocks /\
    length tools <= length blocks <= 2 * length tools /\
    generateToolDocumentation [] = Normal "".
Proof.
  exists (flat_map toolDocs tools).
  assert (Hblocks : documentationBlocks tools = Normal (flat_map toolDocs tools)).
  { unfold documentationBlocks. by rewrite for_of_turn. }
  split; [exact Hblocks |].
  split; [unfold generateToolDocumentation; by rewrite Hblocks |].
  split; [reflexivity |]. split; [| split; [| reflexivity]].
  - induction tools as [| entry tools IH]; cbn [map flat_map]; [constructor |].
    unfold toolDocs at 1. cbn [app]. constructor.
    destruct (toolBlock entry.2); cbn [app]; [constructor |]; apply IH;
      unfold documentationBlocks; by rewrite for_of_turn.
  - apply flat_map_bounds. intros entry. unfold toolDocs.
    destruct (toolBlock entry.2); cbn; lia.
Qed.

Lemma Array_map_throws {A B} (f : A -> Completion B) l x e :
  x ∈ l -> f x = Throw e -> exists e', Array_map f l = Throw e'.
Proof.
  intros Hin Hx. induction l as [| y l IH]; [by apply elem_of_nil in Hin |].
  cbn. destruct (f y) as [b | e1] eqn:Hy; cbn; [| eauto].
  apply elem_of_cons in Hin as [-> | Hin]; [congruence |].
  destruct (IH Hin) as [e' ->]. cbn. eauto.
Qed.

(** X6. One property of a JSON Schema whose own schema is [null] costs the
    tool the whole block of its parameters: reading it throws, the error
    is caught, and only the line of the tool is left. *)
Theorem null_property_schema_drops_block name toolDef params properties entries key :
  ToolSchema.parameters toolDef = Some params ->
  ToBoolean (revive params) = true ->
  member (revive params) "properties" = Normal properties ->
  ToBoolean properties = true ->
  Object_entries properties = Normal entries ->
  (key, JNull) ∈ entries ->
  toolDocs (name, toolDef) = [toolHeader (name, toolDef)].
Proof.
  intros Hparams Htruthy Hprops Hsome Hentries Hnull.
  unfold toolDocs, toolBlock. cbn [fst snd]. rewrite Hparams, Htruthy.
  unfold schemaBlock. rewrite Hprops. cbn [cbind]. rewrite Hsome, Hentries. cbn [cbind].
  destruct (Array_map_throws (paramDoc (revive params)) entries (key, JNull)
              (cannot_read JNull "type") Hnull) as [e' ->]; reflexivity.
Qed.

(** The text of a property of a flat schema. *)
Lemma paramDoc_flat params reqs key ordinary fields t d :
  (member params "required" = Normal (JArr reqs) \/
   (exists r, member params "required" = Normal r /\ is_nullish r = true /\ reqs = [])) ->
  lookup_property fields "type" = Some (JStr t) ->
  t <> "" -> t <> "array" -> t <> "object" ->
  lookup_property fields "description" = Some (JStr d) ->
  paramDoc params (key, JObj ordinary fields) =
    Normal ("  - " ++ key ++ ": " ++ t ++
            (if existsb (fun e => is_string e key) reqs then " (required)" else "") ++
            " - " ++ d).
Proof.
  intros Hreq Htype Hne Harr Hobj Hdesc.
  unfold paramDoc, type_or_any, requiredMark. cbn [fst snd member cbind].
  rewrite Htype, Hdesc. cbn [default cbind]. unfold id.
  assert (Ht : or_else (JStr t) (JStr "any") = JStr t).
  { unfold or_else. cbn. by destruct (String.eqb_spec t ""). }
  rewrite Ht.
  assert (Hmark :
    (required <- member params "required" ;;
     if is_nullish required then Normal ""
     else listed <- call_includes required key ;;
          Normal (if listed then " (required)" else ""))%completion =
    Normal (if existsb (fun e => is_string e key) reqs then " (required)" else "")).
  { destruct Hreq as [-> | (r & -> & Hr & ->)]; cbn; [reflexivity |].
    by rewrite Hr. }
  rewrite Hmark. cbn [cbind].
  assert (Hnotarr : is_string (JStr t) "array" = false).
  { cbn. by destruct (String.eqb_spec t "array"). }
  assert (Hnotobj : is_string (JStr t) "object" = false).
  { cbn. by destruct (String.eqb_spec t "object"). }
  rewrite Hnotarr, Hnotobj. cbn [andb cbind].
  unfold interpolate, or_else. cbn.
  destruct (String.eqb_spec d "") as [-> | _]; reflexivity.
Qed.

(** X7. For a JSON Schema whose properties all have a primitive type and a
    description, the block of the tool is one line per property, in
    order, of the form [  - key: type (required) - description], where
    [(required)] is there exactly for the keys listed in the array
    [required] (for none when [required] is absent). *)
Theorem flat_schema_block toolDef params ordinary props reqs :
  ToolSchema.parameters toolDef = Some params ->
  ToBoolean (revive params) = true ->
  member (revive params) "properties" = Normal (JObj ordinary props) ->
  (member (revive params) "required" = Normal (JArr reqs) \/
   (exists r, member (revive params) "required" = Normal r /\
              is_nullish r = true /\ reqs = [])) ->
  Forall (fun kv =>
            exists o fields t d,
              kv.2 = JObj o fields /\
              lookup_property fields "type" = Some (JStr t) /\
              t <> "" /\ t <> "array" /\ t <> "object" /\
              lookup_property fields "description" = Some (JStr d)) props ->
  exists lines,
    toolBlock toolDef = Some (String.concat newline lines) /\
    Forall2 (fun kv line =>
               exists t d,
                 get_property kv.2 "type" = JStr t /\
                 get_property kv.2 "description" = JStr d /\
                 line = "  - " ++ kv.1 ++ ": " ++ t ++
                        (if existsb (fun e => is_string e kv.1) reqs
                         then " (required)" else "") ++
                        " - " ++ d) props lines.
Proof.
  intros Hparams Htruthy Hprops Hreq Hflat.
  assert (Hmap : exists lines,
             Array_map (paramDoc (revive params)) props = Normal lines /\
             Forall2 (fun kv line =>
               exists t d,
                 get_property kv.2 "type" = JStr t /\
                 get_property kv.2 "description" = JStr d /\
                 line = "  - " ++ kv.1 ++ ": " ++ t ++
                        (if existsb (fun e => is_string e kv.1) reqs
                         then " (required)" else "") ++
                        " - " ++ d) props lines).
  { clear Hprops.
    induction Hflat as [| [k p] props (o & fields & t & d & Hp & Ht & H1 & H2 & H3 & Hd) _ IH].
    - exists []. split; [reflexivity | constructor].
    - destruct IH as (lines & Hlines & Hall). cbn in Hp. subst p.
      eexists. cbn [Array_map].
      rewrite (paramDoc_flat _ reqs k o fields t d Hreq Ht H1 H2 H3 Hd).
      cbn [cbind]. rewrite Hlines. cbn [cbind]. split; [reflexivity |].
      constructor; [| exact Hall].
      exists t, d. cbn. rewrite Ht, Hd. repeat split; reflexivity. }
  destruct Hmap as (lines & Hlines & Hall).
  exists lines. split; [| exact Hall].
  unfold toolBlock. rewrite Hparams, Htruthy.
  unfold schemaBlock. rewrite Hprops. cbn [cbind ToBoolean Object_entries].
  rewrite Hlines. reflexivity.
Qed.

End Documented.

(** * Further examples *)

Section FurtherExamples.
Import Samples.
Import SchemaSamples.
Import Builtins.
Import Documentation.

(** Three calls, one of them bridged, two under the same name. *)
Lemma tools_used_split_example :
  exists res,
    (ProgrammaticToolCaller.execute
       (engine := sample_engine) (model := scripted returns_a_pair)
       "const r = await a(); return [r, r];" new_sandbox).1 = Normal res /\
    Metadata.mcpToolsUsed (ToolOutput.metadata res) = ["mcp_c"] /\
    Metadata.localToolsUsed (ToolOutput.metadata res) = ["a"] /\
    NoDup (Metadata.mcpToolsUsed (ToolOutput.metadata res)) /\
    NoDup (Metadata.localToolsUsed (ToolOutput.metadata res)) /\
    (forall name,
        name ∈ Metadata.toolsUsed (ToolOutput.metadata res) <->
        name ∈ Metadata.localToolsUsed (ToolOutput.metadata res) \/
        name ∈ Metadata.mcpToolsUsed (ToolOutput.metadata res)).
Proof.
  eexists. split; [reflexivity |].
  do 2 (split; [reflexivity |]).
  destruct (tools_used_split
              (engine := sample_engine) (model := scripted returns_a_pair)
              "const r = await a(); return [r, r];" new_sandbox _ eq_refl)
    as (Hmcp & Hlocal & _ & _ & Hunion).
  split; [exact Hmcp |]. split; [exact Hlocal | exact Hunion].
Defined.

(** A script that returns an array. *)
Lemma explicit_return_example :
  exists res,
    (ProgrammaticToolCaller.execute
       (engine := sample_engine) (model := scripted returns_a_pair)
       "const r = await a(); return [r, r];" new_sandbox).1 = Normal res /\
    stringifies (ToolOutput.result res).
Proof.
  apply (explicit_return_stringifies
           (engine := sample_engine) (model := scripted returns_a_pair)
           "const r = await a(); return [r, r];" new_sandbox 75%N
           (JArr [JStr "A"; JStr "A"])); reflexivity.
Defined.

(** Four tools, one of them bridged and one without [execute]. *)
Lemma prompt_tool_names_example :
  ChatRoute.mcpTools
    (ChatRoute.toolNames
       (Enhanced.withProgrammaticCalling
          (engine := sample_engine) (model := scripted no_call_no_return)
          sample_tools None).1)
  = ["mcp_firecrawl_scrape"] /\
  ChatRoute.baseTools
    (ChatRoute.toolNames
       (Enhanced.withProgrammaticCalling
          (engine := sample_engine) (model := scripted no_call_no_return)
          sample_tools None).1)
  = ["getUser"; "schemaOnly"; "calculateAverage"].
Proof.
  destruct (prompt_tool_names
              (engine := sample_engine) (model := scripted no_call_no_return)
              sample_tools None)
    as (_ & _ & _ & Hmcp & Hbase & _).
  rewrite Hmcp, Hbase. split; reflexivity.
Defined.

(** The scraping tool and a tool without description. *)
Lemma documentation_example :
  generateToolDocumentation (engine := sample_engine)
    [("mcp_scrape", scrape_tool); ("plain", undescribed_tool)]
  = Normal
      (String.concat (newline ++ newline)
         ["mcp_scrape: a tool";
          String.concat newline
            ["  - url: string (required) - The URL to scrape";
             "  - depth: number - "];
          "plain: No description"]).
Proof.
  destruct (documentation_lists_every_tool (engine := sample_engine)
              [("mcp_scrape", scrape_tool); ("plain", undescribed_tool)])
    as (blocks & _ & Hgen & Hblocks & _).
  rewrite Hgen, Hblocks. reflexivity.
Defined.

(** A tool whose schema has a property without schema. *)
Lemma null_property_schema_example :
  toolDocs (engine := sample_engine) ("mcp_scrape", broken_tool) =
    ["mcp_scrape: a tool"].
Proof.
  apply (null_property_schema_drops_block
           (engine := sample_engine) "mcp_scrape" broken_tool broken_schema
           (obj [("url", obj [("type", JStr "string");
                              ("description", JStr "The URL to scrape")]);
                 ("depth", JNull)])
           [("url", obj [("type", JStr "string");
                         ("description", JStr "The URL to scrape")]);
            ("depth", JNull)]
           "depth"); try reflexivity.
  right. left.
Defined.

(** The scraping tool. *)
Lemma flat_schema_example :
  exists lines,
    toolBlock (engine := sample_engine) scrape_tool =
      Some (String.concat newline lines) /\
    lines = ["  - url: string (required) - The URL to scrape";
             "  - depth: number - "].
Proof.
  destruct (flat_schema_block
              (engine := sample_engine) scrape_tool scrape_schema true
              [("url", obj [("type", JStr "string");
                            ("description", JStr "The URL to scrape")]);
               ("depth", obj [("type", JStr "number"); ("description", JStr "")])]
              [JStr "url"])
    as (lines & Hblock & Hlines).
  - reflexivity.
  - reflexivity.
  - reflexivity.
  - left. reflexivity.
  - constructor.
    + exists true, [("type", JStr "string"); ("description", JStr "The URL to scrape")],
        "string", "The URL to scrape".
      repeat split; try reflexivity; discriminate.
    + constructor; [| constructor].
      exists true, [("type", JStr "number"); ("description", JStr "")], "number", "".
      repeat split; try reflexivity; discriminate.
  - exists lines. split; [exact Hblock |].
    apply Forall2_cons_inv_l in Hlines as (l1 & rest & (t1 & d1 & Ht1 & Hd1 & ->) & Hrest & ->).
    apply Forall2_cons_inv_l in Hrest as (l2 & rest' & (t2 & d2 & Ht2 & Hd2 & ->) & Hnil & ->).
    apply Forall2_nil_inv_l in Hnil as ->.
    cbn in Ht1, Hd1, Ht2, Hd2.
    injection Ht1 as <-. injection Hd1 as <-. injection Ht2 as <-. injection Hd2 as <-.
    reflexivity.
Defined.

End FurtherExamples.
(** ** Strings: occurrences of a separator *)

Section StringFacts.
Import Builtins.
Import JSString.

#[local] Arguments String.append !_ _ / : simpl nomatch.

Lemma append_nil_r (s : string) : s ++ "" = s.
Proof. induction s as [| c s IH]; [reflexivity | cbn; by f_equal]. Qed.

Lemma append_assoc (a b c : string) : (a ++ b) ++ c = a ++ b ++ c.
Proof. induction a as [| x a IH]; [reflexivity | cbn; by f_equal]. Qed.

Lemma length_append (a b : string) :
  String.length (a ++ b) = String.length a + String.length b.
Proof. induction a as [| x a IH]; [reflexivity | cbn; by f_equal]. Qed.

Lemma prefix_nil (s : string) : String.prefix "" s = true.
Proof. by destruct s. Qed.

Lemma prefix_refl_app (sep b : string) : String.prefix sep (sep ++ b) = true.
Proof.
  induction sep as [| c sep IH]; cbn [append String.prefix]; [apply prefix_nil |].
  destruct (Ascii.ascii_dec c c); [exact IH | contradiction].
Qed.

(** Whether [sep] begins a text long enough is decided by the text up to
    there. *)
Lemma prefix_app_long (sep x y : string) :
  String.length sep <= String.length x ->
  String.prefix sep (x ++ y) = String.prefix sep x.
Proof.
  revert x. induction sep as [| c sep IH]; intros x Hlen.
  - by rewrite !prefix_nil.
  - destruct x as [| d x]; cbn [String.length] in Hlen; [lia |].
    cbn [append String.prefix].
    destruct (Ascii.ascii_dec c d); [apply IH; lia | reflexivity].
Qed.

(** When [sep] begins beyond the end of a shorter text, the text is a
    beginning of [sep]. *)
Lemma prefix_app_short (sep x y : string) :
  String.length x < String.length sep ->
  String.prefix sep (x ++ y) = true ->
  exists rest, sep = x ++ rest /\ rest <> "" /\ String.prefix rest y = true.
Proof.
  revert sep. induction x as [| d x IH]; intros sep Hlen Hpre.
  - exists sep. cbn [append] in *. split; [reflexivity |]. split; [| exact Hpre].
    intros ->. cbn in Hlen. lia.
  - destruct sep as [| c sep]; cbn [String.length] in Hlen; [lia |].
    cbn [append String.prefix] in Hpre.
    destruct (Ascii.ascii_dec c d) as [-> | _]; [| discriminate].
    destruct (IH sep) as (rest & -> & Hrest & Hy); [lia | exact Hpre |].
    exists rest. by cbn [append].
Qed.

Lemma includes_prefix (sep s : string) :
  String_includes sep s = false -> String.prefix sep s = false.
Proof. destruct s; cbn [String_includes]; by intros [? _]%orb_false_iff. Qed.

Lemma includes_tail (sep : string) c (s : string) :
  String_includes sep (String c s) = false -> String_includes sep s = false.
Proof. cbn [String_includes]. by intros [_ ?]%orb_false_iff. Qed.

Lemma includes_app_r (sep a b : string) :
  String_includes sep b = true -> String_includes sep (a ++ b) = true.
Proof.
  intros Hb. induction a as [| c a IH]; cbn [append]; [exact Hb |].
  cbn [String_includes]. rewrite IH. apply orb_true_r.
Qed.

Lemma includes_here (sep b : string) : String_includes sep (sep ++ b) = true.
Proof.
  destruct (sep ++ b) eqn:E; cbn [String_includes];
    rewrite <- E, prefix_refl_app; reflexivity.
Qed.

Lemma proper_suffix_In (x y : string) :
  x <> "" -> In y (proper_suffixes (x ++ y)).
Proof.
  induction x as [| c x IH]; intros Hx; [contradiction |].
  cbn [append proper_suffixes]. destruct x as [| d x].
  - by left.
  - right. by apply IH.
Qed.

(** For a separator that cannot overlap itself, a text that does not
    contain it cannot hold the start of an occurrence either, whatever
    follows the separator put after it. *)
Lemma no_overlap (sep a b : string) :
  border_free sep = true ->
  String_includes sep a = false ->
  a <> "" ->
  String.prefix sep (a ++ sep ++ b) = false.
Proof.
  intros Hfree Hout Ha.
  destruct (le_lt_dec (String.length sep) (String.length a)) as [Hlong | Hshort].
  - rewrite prefix_app_long by exact Hlong. by apply includes_prefix.
  - destruct (String.prefix sep (a ++ sep ++ b)) eqn:Hpre; [| reflexivity].
    destruct (prefix_app_short sep a (sep ++ b) Hshort Hpre) as (rest & Hsep & Hrest & Hin).
    assert (Hlen : String.length rest <= String.length sep).
    { apply (f_equal String.length) in Hsep. rewrite length_append in Hsep. lia. }
    rewrite prefix_app_long in Hin by exact Hlen.
    unfold border_free in Hfree. rewrite forallb_forall in Hfree.
    pose proof (proper_suffix_In a rest Ha) as Hmem. rewrite <- Hsep in Hmem.
    specialize (Hfree rest Hmem).
    destruct (String.eqb_spec rest ""); [contradiction |].
    rewrite Hin in Hfree. discriminate.
Qed.

Lemma split_scan_skip (sep x b piece : string) :
  split_scan sep (String.length x) piece (x ++ b) = split_scan sep 0 piece b.
Proof.
  induction x as [| c x IH]; cbn [append String.length]; [reflexivity |].
  cbn [split_scan]. exact IH.
Qed.

(** A text without the separator is one piece. *)
Lemma split_scan_none (sep piece a : string) :
  String_includes sep a = false ->
  split_scan sep 0 piece a = [piece ++ a].
Proof.
  revert piece. induction a as [| c a IH]; intros piece Hout.
  - cbn. by rewrite append_nil_r.
  - cbn [split_scan]. rewrite (includes_prefix _ _ Hout).
    rewrite IH by (eapply includes_tail, Hout).
    by rewrite append_assoc.
Qed.

(** The first piece of a text ends at the first separator. *)
Lemma split_scan_cons (sep piece a b : string) :
  border_free sep = true ->
  sep <> "" ->
  String_includes sep a = false ->
  split_scan sep 0 piece (a ++ sep ++ b) = (piece ++ a) :: split_scan sep 0 "" b.
Proof.
  intros Hfree Hsep. revert piece. induction a as [| c a IH]; intros piece Hout.
  - cbn [append]. rewrite append_nil_r.
    destruct sep as [| d sep]; [contradiction |].
    cbn [append split_scan]. 
    change (String d (sep ++ b)) with (String d sep ++ b).
    rewrite prefix_refl_app.
    replace (String.length (String d sep) - 1) with (String.length sep)
      by (cbn [String.length]; lia).
    by rewrite split_scan_skip.
  - pose proof (no_overlap sep (String c a) b Hfree Hout) as Hno.
    cbn [append] in Hno |- *. cbn [split_scan].
    rewrite Hno by discriminate.
    rewrite IH by (eapply includes_tail, Hout).
    by rewrite append_assoc.
Qed.

Lemma split_cons (sep a b : string) :
  border_free sep = true ->
  sep <> "" ->
  String_includes sep a = false ->
  split sep (a ++ sep ++ b) = a :: split sep b.
Proof. intros. unfold split. by rewrite split_scan_cons. Qed.

Lemma split_none (sep a : string) :
  String_includes sep a = false -> split sep a = [a].
Proof. intros. unfold split. by rewrite split_scan_none. Qed.

Lemma indexOf_app c (j post : string) :
  indexOf c j = None ->
  indexOf c (j ++ String c post) = Some (String.length j).
Proof.
  induction j as [| d j IH]; cbn [append indexOf String.length].
  - by rewrite Ascii.eqb_refl.
  - destruct (Ascii.eqb d c); [discriminate |].
    destruct (indexOf c j); [discriminate |]. intros _. by rewrite IH.
Qed.

Lemma take_app (j x : string) : take (String.length j) (j ++ x) = j.
Proof. induction j as [| d j IH]; cbn; [by destruct x | by rewrite IH]. Qed.

Lemma drop_app_succ (j : string) c (x : string) :
  drop (String.length j + 1) (j ++ String c x) = x.
Proof. induction j as [| d j IH]; cbn; [reflexivity | exact IH]. Qed.

Lemma prefix_app_l (sep a b : string) :
  String.prefix sep a = true -> String.prefix sep (a ++ b) = true.
Proof.
  revert a. induction sep as [| c sep IH]; intros a; [by rewrite !prefix_nil |].
  destruct a as [| d a]; cbn [append String.prefix]; [discriminate |].
  destruct (Ascii.ascii_dec c d); [apply IH | discriminate].
Qed.

Lemma includes_app_l (sep a b : string) :
  String_includes sep a = true -> String_includes sep (a ++ b) = true.
Proof.
  induction a as [| c a IH].
  - cbn [String_includes append]. intros Hp. destruct sep; [| discriminate].
    destruct b; cbn [String_includes]; by rewrite ?prefix_nil.
  - cbn [append String_includes]. intros [Hp | Hin]%orb_true_iff.
    + change (String c (a ++ b)) with (String c a ++ b).
      by rewrite prefix_app_l.
    + rewrite IH by exact Hin. apply orb_true_r.
Qed.

Lemma excludes_app_l (sep a b : string) :
  String_includes sep (a ++ b) = false -> String_includes sep a = false.
Proof.
  intros Hout. destruct (String_includes sep a) eqn:Hin; [| reflexivity].
  by rewrite includes_app_l in Hout.
Qed.

End StringFacts.

(** ** The read loop of the chat interface *)

Section ReadLoopFacts.
Import Builtins.
Import JSString.
Import ChatStream.

#[local] Arguments String.append !_ _ / : simpl nomatch.

Context {U : Type}.
Variable onToolCallJson : string -> U -> U.
Variable onMetadataJson : string -> U -> U.

Lemma toolCallMarker_border_free : border_free toolCallMarker = true.
Proof. vm_compute. reflexivity. Qed.

Lemma metadataMarker_border_free : border_free metadataMarker = true.
Proof. vm_compute. reflexivity. Qed.

(** A complete event: the line goes to the handler, the rest of the part
    to the text. *)
Lemma processPart_complete (acc : string * string * U) (j post : string) :
  isLine j ->
  processPart onToolCallJson acc (j ++ newline ++ post)
  = (acc.1.1 ++ post, acc.1.2, onToolCallJson j acc.2).
Proof.
  intros [Hne Hnl]. unfold processPart.
  change (newline ++ post) with (String (Ascii.ascii_of_nat 10) post).
  rewrite indexOf_app by exact Hnl.
  assert (Hlen : exists n, String.length j = S n)
    by (destruct j; [contradiction | by eexists]).
  destruct Hlen as [n Hlen]. rewrite Hlen. cbv beta iota. rewrite <- Hlen.
  by rewrite take_app, drop_app_succ.
Qed.

(** A part without a line feed is put back into the buffer. *)
Lemma processPart_incomplete (acc : string * string * U) (part : string) :
  indexOf (Ascii.ascii_of_nat 10) part = None ->
  processPart onToolCallJson acc part = (acc.1.1, toolCallMarker ++ part, acc.2).
Proof. intros Hnl. unfold processPart. by rewrite Hnl. Qed.

Lemma process_parts (events : list (string * string)) (acc : string * string * U) :
  Forall (fun e => isLine e.1) events ->
  fold_left (processPart onToolCallJson)
    (map (fun e => e.1 ++ newline ++ e.2) events) acc
  = (textOf acc.1.1 events, acc.1.2,
     fold_left (fun u e => onToolCallJson e.1 u) events acc.2).
Proof.
  intros Hev. revert acc.
  induction Hev as [| e events He _ IH]; intros [[text buf] u]; unfold textOf.
  - cbn. by rewrite append_nil_r.
  - cbn [map fold_left foldr]. rewrite processPart_complete by exact He.
    rewrite IH. unfold textOf. cbn [fst snd]. by rewrite append_assoc.
Qed.

Lemma split_events (pre : string) (events : list (string * string)) :
  String_includes toolCallMarker pre = false ->
  Forall (fun e => String_includes toolCallMarker (e.1 ++ newline ++ e.2) = false)
    events ->
  split toolCallMarker (withEvents pre events)
  = pre :: map (fun e => e.1 ++ newline ++ e.2) events.
Proof.
  intros Hpre Hev. revert pre Hpre.
  induction Hev as [| e events He _ IH]; intros pre Hpre; unfold withEvents.
  - cbn [foldr map]. rewrite append_nil_r. by apply split_none.
  - cbn [foldr map]. unfold eventText at 1. rewrite !append_assoc.
    rewrite split_cons;
      [| exact toolCallMarker_border_free | discriminate | exact Hpre].
    f_equal. specialize (IH _ He). unfold withEvents in IH.
    rewrite !append_assoc in IH. exact IH.
Qed.

End ReadLoopFacts.

Section ReadLoopProperties.
Import Builtins.
Import JSString.
Import ChatStream.

#[local] Arguments String.append !_ _ / : simpl nomatch.

Context {U : Type}.
Variable onToolCallJson : string -> U -> U.
Variable onMetadataJson : string -> U -> U.

Lemma includes_withEvents (pre : string) (e : string * string)
    (events : list (string * string)) :
  String_includes toolCallMarker (withEvents pre (e :: events)) = true.
Proof.
  unfold withEvents. cbn [foldr]. unfold eventText at 1.
  apply includes_app_r. rewrite append_assoc. apply includes_here.
Qed.

Lemma flushed_withEvents (pre j : string) (jsons : list string) :
  pre ++ flushed (j :: jsons) = withEvents (pre ++ newline) (frameEvents j jsons).
Proof.
  revert pre j. induction jsons as [| j' jsons IH]; intros pre j.
  - unfold withEvents, flushed, toolCallFrame, eventText. cbn [foldr frameEvents fst snd].
    by rewrite !append_assoc.
  - change (flushed (j :: j' :: jsons))
      with (toolCallFrame j ++ flushed (j' :: jsons)).
    change (frameEvents j (j' :: jsons)) with ((j, newline) :: frameEvents j' jsons).
    unfold withEvents. cbn [foldr]. unfold eventText at 1. cbn [fst snd].
    unfold toolCallFrame at 1. rewrite !append_assoc.
    do 4 f_equal. rewrite <- append_assoc. 
    specialize (IH "" j'). cbn [append] in IH. unfold withEvents in IH.
    rewrite IH. by rewrite append_assoc.
Qed.

Lemma frameEvents_lines (P : string -> Prop) (j : string) (jsons : list string) :
  Forall P (j :: jsons) -> Forall (fun e => P e.1) (frameEvents j jsons).
Proof.
  revert j. induction jsons as [| j' jsons IH]; intros j Hall.
  - constructor; [by inversion Hall | constructor].
  - inversion Hall as [| ? ? Hj Hrest]; subst. constructor; [exact Hj | by apply IH].
Qed.

Lemma frameEvents_free (j : string) (jsons : list string) :
  Forall (fun j => String_includes toolCallMarker (j ++ newline ++ newline) = false)
    (j :: jsons) ->
  Forall (fun e => String_includes toolCallMarker (e.1 ++ newline ++ e.2) = false)
    (frameEvents j jsons).
Proof.
  revert j. induction jsons as [| j' jsons IH]; intros j Hall.
  - constructor; [| constructor]. inversion Hall as [| ? ? Hj _]; subst.
    cbn [fst snd]. rewrite <- (append_nil_r newline) at 1.
    apply excludes_app_l with (b := newline). rewrite !append_assoc.
    cbn [append] in Hj |- *. exact Hj.
  - inversion Hall as [| ? ? Hj Hrest]; subst. constructor; [exact Hj | by apply IH].
Qed.

Lemma frameEvents_text (pre j : string) (jsons : list string) :
  textOf (pre ++ newline) (frameEvents j jsons)
  = pre ++ foldr (fun _ rest => newline ++ rest) "" (j :: jsons).
Proof.
  unfold textOf. rewrite append_assoc. f_equal.
  revert j. induction jsons as [| j' jsons IH]; intros j.
  - reflexivity.
  - cbn [frameEvents foldr fst snd] in *. f_equal. exact (IH j').
Qed.

Lemma frameEvents_handled (j : string) (jsons : list string) (u : U) :
  fold_left (fun u e => onToolCallJson e.1 u) (frameEvents j jsons) u
  = fold_left (fun u j => onToolCallJson j u) (j :: jsons) u.
Proof.
  revert j u. induction jsons as [| j' jsons IH]; intros j u; [reflexivity |].
  cbn [frameEvents fold_left fst] in *. by rewrite IH.
Qed.

(** X8. A chunk with the marker of a tool-call event is joined to the
    buffer and cut at the markers.  When the joined text is a text [pre]
    followed by events that are each a line and the text up to the next
    marker, every line is handed to the tool-call handler, in order; the
    text shown grows by the joined text with the events cut out; the
    buffer is left empty; and the metadata handler is not called. *)
Theorem tool_call_events_cut_out (st : State U) (chunk pre : string)
    (events : list (string * string)) :
  String_includes toolCallMarker chunk = true ->
  toolCallBuffer st ++ chunk = withEvents pre events ->
  String_includes toolCallMarker pre = false ->
  Forall (fun e => isLine e.1) events ->
  Forall (fun e => String_includes toolCallMarker (e.1 ++ newline ++ e.2) = false)
    events ->
  processChunk onToolCallJson onMetadataJson st chunk
  = {| assistantContent := assistantContent st ++ textOf pre events;
       toolCallBuffer := "";
       ui := fold_left (fun u e => onToolCallJson e.1 u) events (ui st) |}.
Proof.
  intros Hin Hfull Hpre Hlines Hfree. unfold processChunk.
  rewrite Hin, Hfull, split_events by assumption.
  by rewrite process_parts by exact Hlines.
Qed.

(** X9. The frames that [streamPendingToolCalls] enqueues for the waiting
    events, arriving in one chunk after some text and with nothing in
    the buffer, are decoded by the read loop: the handler gets the JSON
    text of every event, in the order of the queue, and the text shown
    grows by the text and one line feed per event.  The JSON texts are
    lines, and no marker shows up in them or across the frame ends. *)
Theorem flushed_tool_calls_decoded (st : State U) (text j : string)
    (jsons : list string) :
  toolCallBuffer st = "" ->
  String_includes toolCallMarker (text ++ newline) = false ->
  Forall isLine (j :: jsons) ->
  Forall (fun j => String_includes toolCallMarker (j ++ newline ++ newline) = false)
    (j :: jsons) ->
  processChunk onToolCallJson onMetadataJson st (text ++ flushed (j :: jsons))
  = {| assistantContent :=
         assistantContent st ++ text
           ++ foldr (fun _ rest => newline ++ rest) "" (j :: jsons);
       toolCallBuffer := "";
       ui := fold_left (fun u j => onToolCallJson j u) (j :: jsons) (ui st) |}.
Proof.
  intros Hbuf Htext Hlines Hfree. unfold processChunk.
  rewrite Hbuf. cbn [append]. rewrite flushed_withEvents.
  destruct (frameEvents j jsons) as [| e events] eqn:Hev;
    [by destruct jsons |].
  rewrite includes_withEvents. rewrite <- Hev.
  rewrite split_events by (exact Htext || by apply frameEvents_free).
  rewrite process_parts by (by apply (frameEvents_lines isLine)).
  cbn [fst snd]. by rewrite frameEvents_text, frameEvents_handled.
Qed.

(** X10. An event cut in two by the chunk boundary is lost when the chunk
    with its end has no marker: the beginning stays in the buffer, the
    end is added to the text shown, and no handler is called. *)
Theorem split_event_end_shown_as_text (st : State U) (pre head tail : string) :
  toolCallBuffer st = "" ->
  String_includes toolCallMarker pre = false ->
  String_includes toolCallMarker head = false ->
  indexOf (Ascii.ascii_of_nat 10) head = None ->
  String_includes toolCallMarker tail = false ->
  String_includes metadataMarker tail = false ->
  processChunk onToolCallJson onMetadataJson
    (processChunk onToolCallJson onMetadataJson st (pre ++ toolCallMarker ++ head))
    tail
  = {| assistantContent := assistantContent st ++ pre ++ tail;
       toolCallBuffer := toolCallMarker ++ head;
       ui := ui st |}.
Proof.
  intros Hbuf Hpre Hhead Hnl Htail Hmeta.
  assert (Hfirst :
    processChunk onToolCallJson onMetadataJson st (pre ++ toolCallMarker ++ head)
    = {| assistantContent := assistantContent st ++ pre;
         toolCallBuffer := toolCallMarker ++ head;
         ui := ui st |}).
  { unfold processChunk.
    rewrite (includes_app_r _ pre) by apply includes_here.
    rewrite Hbuf. cbn [append].
    rewrite split_cons;
      [| exact toolCallMarker_border_free | discriminate | exact Hpre].
    rewrite split_none by exact Hhead. cbn [fold_left].
    by rewrite processPart_incomplete by exact Hnl. }
  rewrite Hfirst. unfold processChunk. rewrite Htail, Hmeta.
  cbn [assistantContent toolCallBuffer ui]. by rewrite append_assoc.
Qed.

(** X11. The finish event sent by the chat route, arriving after some
    text in a chunk without a tool-call marker, is decoded: the text and
    the two line feeds of the frame are shown, and the metadata handler
    gets the JSON text with the line feed that ends the frame. *)
Theorem metadata_frame_decoded (st : State U) (text json : string) :
  String_includes toolCallMarker (text ++ metadataFrame json) = false ->
  String_includes metadataMarker (text ++ newline ++ newline) = false ->
  String_includes metadataMarker (json ++ newline) = false ->
  processChunk onToolCallJson onMetadataJson st (text ++ metadataFrame json)
  = {| assistantContent := assistantContent st ++ text ++ newline ++ newline;
       toolCallBuffer := toolCallBuffer st;
       ui := onMetadataJson (json ++ newline) (ui st) |}.
Proof.
  intros Htool Htext Hjson. unfold processChunk. rewrite Htool.
  unfold metadataFrame in *.
  replace (text ++ newline ++ newline ++ metadataMarker ++ json ++ newline)
    with ((text ++ newline ++ newline) ++ metadataMarker ++ json ++ newline)
    by (by rewrite !append_assoc).
  rewrite (includes_app_r _ (text ++ newline ++ newline)) by apply includes_here.
  rewrite split_cons;
    [| exact metadataMarker_border_free | discriminate | exact Htext].
  by rewrite split_none by exact Hjson.
Qed.

(** X12. When the finish event arrives in the same chunk as a tool-call
    event, the chunk takes the tool-call branch only: the metadata
    handler is not called, and the whole metadata frame is added to the
    text shown. *)
Theorem metadata_behind_tool_call_shown_as_text (st : State U) (j meta : string) :
  toolCallBuffer st = "" ->
  isLine j ->
  String_includes toolCallMarker (j ++ newline ++ metadataFrame meta) = false ->
  processChunk onToolCallJson onMetadataJson st (toolCallFrame j ++ metadataFrame meta)
  = {| assistantContent := assistantContent st ++ newline ++ metadataFrame meta;
       toolCallBuffer := "";
       ui := onToolCallJson j (ui st) |}.
Proof.
  intros Hbuf Hline Hfree. unfold processChunk.
  replace (toolCallFrame j ++ metadataFrame meta)
    with (withEvents newline [(j, metadataFrame meta)])
    by (unfold withEvents, eventText, toolCallFrame; cbn [foldr fst snd];
        by rewrite !append_assoc, append_nil_r).
  rewrite includes_withEvents, Hbuf. cbn [append].
  rewrite split_events;
    [| reflexivity | by constructor].
  rewrite process_parts by (by constructor).
  unfold textOf. cbn [foldr fold_left fst snd]. by rewrite append_nil_r.
Qed.

End ReadLoopProperties.

Section StreamExamples.
Import Builtins.
Import JSString.
Import ChatStream.
Import StreamSamples.

(** The end of the event waiting in the buffer arrives together with a
    second event: both are decoded. *)
Lemma tool_call_events_example :
  processChunk noteToolCall noteMetadata waiting
    ("}" ++ newline ++ toolCallMarker ++ "{2}" ++ newline ++ "more")
  = {| assistantContent := "Himore";
       toolCallBuffer := "";
       ui := ["tool-call {1}"; "tool-call {2}"] |}.
Proof.
  apply (tool_call_events_cut_out noteToolCall noteMetadata waiting
           ("}" ++ newline ++ toolCallMarker ++ "{2}" ++ newline ++ "more")
           "" [("{1}", ""); ("{2}", "more")]).
  - reflexivity.
  - reflexivity.
  - reflexivity.
  - repeat constructor; discriminate.
  - repeat constructor.
Defined.

(** Two events flushed behind a piece of text. *)
Lemma flushed_tool_calls_example :
  processChunk noteToolCall noteMetadata start
    ("text" ++ flushed ["{1}"; "{2}"])
  = {| assistantContent := "Hitext" ++ newline ++ newline;
       toolCallBuffer := "";
       ui := ["tool-call {1}"; "tool-call {2}"] |}.
Proof.
  apply (flushed_tool_calls_decoded noteToolCall noteMetadata start
           "text" "{1}" ["{2}"]).
  - reflexivity.
  - reflexivity.
  - repeat constructor; discriminate.
  - repeat constructor.
Defined.

(** The event [{1}] cut after its second character. *)
Lemma split_event_example :
  processChunk noteToolCall noteMetadata
    (processChunk noteToolCall noteMetadata start
       ("text" ++ toolCallMarker ++ "{1"))
    ("}" ++ newline ++ "more")
  = {| assistantContent := "Hitext}" ++ newline ++ "more";
       toolCallBuffer := "__TOOL_CALL__:{1";
       ui := [] |}.
Proof.
  apply (split_event_end_shown_as_text noteToolCall noteMetadata start
           "text" "{1" ("}" ++ newline ++ "more")); reflexivity.
Defined.

(** The finish event behind the last piece of text. *)
Lemma metadata_frame_example :
  processChunk noteToolCall noteMetadata start ("text" ++ metadataFrame "{m}")
  = {| assistantContent := "Hitext" ++ newline ++ newline;
       toolCallBuffer := "";
       ui := ["metadata {m}" ++ newline] |}.
Proof.
  apply (metadata_frame_decoded noteToolCall noteMetadata start "text" "{m}");
    reflexivity.
Defined.

(** A tool-call event and the finish event in one chunk. *)
Lemma metadata_behind_tool_call_example :
  processChunk noteToolCall noteMetadata start
    (toolCallFrame "{1}" ++ metadataFrame "{m}")
  = {| assistantContent := "Hi" ++ newline ++ metadataFrame "{m}";
       toolCallBuffer := "";
       ui := ["tool-call {1}"] |}.
Proof.
  apply (metadata_behind_tool_call_shown_as_text noteToolCall noteMetadata start
           "{1}" "{m}").
  - reflexivity.
  - split; [discriminate | reflexivity].
  - reflexivity.
Defined.

End StreamExamples.

(** ** The validation of ARM templates *)

Section TemplateValidation.
Import ArmTemplate.
Import Builtins.
Context {parser : Parser}.

Lemma member_defined (v : JsValue) (name : string) :
  is_nullish v = false -> exists w, member v name = Normal w.
Proof. destruct v; intros Hv; try discriminate; by eexists. Qed.

(** The loop over the resources adds an error for every resource without
    type and a warning for every one without API version. *)
Lemma forEach_issues (index : nat) (elems : list JsValue) (issues : Issues) :
  Forall (fun r => is_nullish r = false) elems ->
  forEach index elems issues
  = Normal ((issues.1 ++ map missingResourceType (lacking "type" index elems))%list,
            (issues.2 ++ map missingApiVersion (lacking "apiVersion" index elems))%list).
Proof.
  intros Hall. revert index issues.
  induction Hall as [| r elems Hr _ IH]; intros index [es ws].
  - cbn. by rewrite !app_nil_r.
  - destruct (member_defined r "type" Hr) as [t Ht].
    destruct (member_defined r "apiVersion" Hr) as [a Ha].
    cbn [forEach lacking]. unfold checkResource. rewrite Ht, Ha.
    cbn [cbind fst snd]. rewrite IH. cbn [fst snd].
    destruct (ToBoolean t), (ToBoolean a); cbn [map];
      by rewrite <- ?app_assoc.
Qed.

(** It stops at a resource that is [null]. *)
Lemma forEach_null (index : nat) (before after : list JsValue) (issues : Issues) :
  Forall (fun r => is_nullish r = false) before ->
  forEach index (before ++ JNull :: after) issues
  = Throw (cannot_read JNull "type").
Proof.
  intros Hall. revert index issues.
  induction Hall as [| r before Hr _ IH]; intros index issues; [reflexivity |].
  destruct (member_defined r "type" Hr) as [t Ht].
  destruct (member_defined r "apiVersion" Hr) as [a Ha].
  cbn [app forEach]. unfold checkResource. rewrite Ht, Ha.
  cbn [cbind]. apply IH.
Qed.

(** Errors are only added, and none is added only if every resource has
    a type. *)
Lemma forEach_errors (index : nat) (elems : list JsValue) (issues issues' : Issues) :
  forEach index elems issues = Normal issues' ->
  exists added,
    issues'.1 = (issues.1 ++ added)%list /\
    (added = [] ->
     Forall (fun r => exists t, member r "type" = Normal t /\ ToBoolean t = true)
       elems).
Proof.
  revert index issues. induction elems as [| r elems IH]; intros index issues.
  - cbn. intros [= <-]. exists []. by rewrite app_nil_r.
  - cbn [forEach]. unfold checkResource.
    destruct (member r "type") as [t |] eqn:Ht; [| discriminate].
    destruct (member r "apiVersion") as [a |]; [| discriminate].
    cbn [cbind]. intros Hrest.
    destruct (IH _ _ Hrest) as (added & Herr & Htyped). cbn [fst snd] in Herr.
    destruct (ToBoolean t) eqn:Htrue.
    + exists added. split; [exact Herr |]. intros Hnone.
      constructor; [by exists t | by apply Htyped].
    + exists (missingResourceType index :: added).
      split; [by rewrite Herr, <- app_assoc | discriminate].
Qed.

Lemma checkParameters_errors (parsed : JsValue)
    (parameters : option (list (string * JsValue))) (issues issues' : Issues) :
  checkParameters parsed parameters issues = Normal issues' ->
  issues'.1 = issues.1.
Proof.
  unfold checkParameters. destruct parameters as [provided |]; [| by intros [= <-]].
  destruct (member parsed "parameters") as [tp |]; [| discriminate].
  cbn [cbind]. destruct (ToBoolean tp); [| by intros [= <-]].
  destruct (Object_keys tp) as [keys |]; [| discriminate]. cbn [cbind].
  destruct (Array_filter _ keys); [| discriminate]. cbn [cbind].
  by intros [= <-].
Qed.

Lemma length_zero_nil {A : Type} (l : list A) : Nat.eqb (length l) 0 = true <-> l = [].
Proof. destruct l; cbn; [done | split; discriminate]. Qed.

(** X13. For a template that is an object whose [resources] is an array
    without [null], and when no parameters are given or the template
    declares none, the report has one error for every resource whose
    [type] is falsy -- code MissingResourceType, severity error, the
    message and the field [resourceIndex] giving the index of the
    resource -- and, after the MissingSchema warning when [$schema] is
    falsy, one MissingApiVersion warning for every resource whose
    [apiVersion] is falsy, made in the same way, all in the order of the
    array; the template is valid exactly when no resource lacks a
    type. *)
Theorem resource_issues_by_index (subscriptionId : string)
    (resourceGroupName : option string) (template : string)
    (parameters : option (list (string * JsValue))) (mode : option string)
    (members : list (string * Json)) (elems : list JsValue) :
  JSON_parse_text template = inl (JsonObj members) ->
  get_property (revive (JsonObj members)) "resources" = JArr elems ->
  Forall (fun r => is_nullish r = false) elems ->
  parameters = None \/
    ToBoolean (get_property (revive (JsonObj members)) "parameters") = false ->
  exists report,
    execute subscriptionId resourceGroupName template parameters mode
    = Normal report /\
    errors report
    = map (fun index =>
             {| code := "MissingResourceType";
                message := "Resource at index " ++ pretty index
                           ++ " is missing a type property";
                severity := "error";
                resourceIndex := Some index;
                parameter := None |})
        (lacking "type" 0 elems) /\
    warnings report
    = ((if ToBoolean (get_property (revive (JsonObj members)) "$schema")
        then []
        else [{| code := "MissingSchema";
                 message := "Template does not specify a $schema property";
                 severity := "warning";
                 resourceIndex := None;
                 parameter := None |}])
       ++ map (fun index =>
                 {| code := "MissingApiVersion";
                    message := "Resource at index " ++ pretty index
                               ++ " is missing an apiVersion property";
                    severity := "warning";
                    resourceIndex := Some index;
                    parameter := None |})
            (lacking "apiVersion" 0 elems))%list /\
    (valid report = true <-> lacking "type" 0 elems = []).
Proof.
  intros Hparse Hres Hall Hparams. unfold execute, parseText. rewrite Hparse.
  cbn [cbind]. unfold validate.
  change (member (revive (JsonObj members)) "$schema")
    with (Normal (get_property (revive (JsonObj members)) "$schema")).
  change (member (revive (JsonObj members)) "resources")
    with (Normal (get_property (revive (JsonObj members)) "resources")).
  change (member (revive (JsonObj members)) "contentVersion")
    with (Normal (get_property (revive (JsonObj members)) "contentVersion")).
  cbn [cbind]. rewrite Hres. rewrite forEach_issues by exact Hall.
  cbn [cbind fst snd app].
  assert (Hcheck : forall issues,
             checkParameters (revive (JsonObj members)) parameters issues
             = Normal issues).
  { intros issues. unfold checkParameters. destruct Hparams as [-> | Hnone];
      [reflexivity |]. destruct parameters; [| reflexivity].
    change (member (revive (JsonObj members)) "parameters")
      with (Normal (get_property (revive (JsonObj members)) "parameters")).
    cbn [cbind]. by rewrite Hnone. }
  rewrite Hcheck. cbn [cbind try_catch fst snd].
  eexists. split; [reflexivity |]. cbn [errors warnings valid].
  split; [reflexivity |]. split; [reflexivity |].
  rewrite length_zero_nil. split.
  - by intros ?%map_eq_nil.
  - by intros ->.
Qed.

(** X14. A report that says valid was made from a text that parsed, with
    a [resources] array all of whose elements have a truthy [type]; it has
    no errors and carries the properties of the template. *)
Theorem valid_report_has_typed_resources (subscriptionId : string)
    (resourceGroupName : option string) (template : string)
    (parameters : option (list (string * JsValue))) (mode : option string)
    (report : Validation) :
  execute subscriptionId resourceGroupName template parameters mode
  = Normal report ->
  valid report = true ->
  exists tree elems,
    JSON_parse_text template = inl tree /\
    member (revive tree) "resources" = Normal (JArr elems) /\
    Forall (fun r => exists t, member r "type" = Normal t /\ ToBoolean t = true)
      elems /\
    errors report = [] /\
    properties report <> None.
Proof.
  unfold execute, parseText.
  destruct (JSON_parse_text template) as [tree | msg];
    [| cbn; intros [= <-]; discriminate].
  cbn [cbind]. unfold validate.
  destruct (member (revive tree) "$schema") as [schema |];
    [| cbn; intros [= <-]; discriminate].
  cbn [cbind].
  destruct (member (revive tree) "resources") as [res |] eqn:Hres;
    [| cbn; intros [= <-]; discriminate].
  cbn [cbind].
  set (ws := if ToBoolean schema then [] else [missingSchema]).
  destruct (match res with
            | JArr elems => forEach 0 elems ([], ws)
            | _ => Normal ([missingResources], ws)
            end) as [checked |] eqn:Hchecked;
    [| cbn; intros [= <-]; discriminate].
  cbn [cbind].
  destruct (checkParameters (revive tree) parameters checked) as [issues |] eqn:Hiss;
    [| cbn; intros [= <-]; discriminate].
  cbn [cbind].
  destruct (member (revive tree) "contentVersion") as [cv |];
    [| cbn; intros [= <-]; discriminate].
  cbn [cbind try_catch]. intros [= <-]. cbn [valid errors properties].
  intros Hvalid%length_zero_nil.
  apply checkParameters_errors in Hiss. rewrite Hvalid in Hiss.
  destruct res as [| | | | | | | | elems |];
    try (injection Hchecked as <-; discriminate).
  destruct (forEach_errors _ _ _ _ Hchecked) as (added & Herr & Htyped).
  cbn [fst app] in Herr. rewrite <- Hiss in Herr. symmetry in Herr.
  exists tree, elems.
  split; [reflexivity |]. split; [exact Hres |]. split; [exact (Htyped Herr) |].
  split; [exact Hvalid | discriminate].
Qed.

(** X15. A template that is a JSON text but has [null] among its resources
    is reported as not being valid JSON: reading [type] of [null] throws
    inside the [try] block, and the [catch] block answers every error
    with the InvalidJSON report, without properties and without the
    issues found before. *)
Theorem null_resource_reported_as_invalid_json (subscriptionId : string)
    (resourceGroupName : option string) (template : string)
    (parameters : option (list (string * JsValue))) (mode : option string)
    (members : list (string * Json)) (before after : list JsValue) :
  JSON_parse_text template = inl (JsonObj members) ->
  get_property (revive (JsonObj members)) "resources"
  = JArr (before ++ JNull :: after) ->
  Forall (fun r => is_nullish r = false) before ->
  execute subscriptionId resourceGroupName template parameters mode
  = Normal
      {| valid := false;
         errors :=
           [{| code := "InvalidJSON";
               message := "Template is not valid JSON: Cannot read properties of null (reading 'type')";
               severity := "error";
               resourceIndex := None;
               parameter := None |}];
         warnings := [];
         properties := None;
         summary := None |}.
Proof.
  intros Hparse Hres Hall. unfold execute, parseText. rewrite Hparse.
  cbn [cbind]. unfold validate.
  change (member (revive (JsonObj members)) "$schema")
    with (Normal (get_property (revive (JsonObj members)) "$schema")).
  change (member (revive (JsonObj members)) "resources")
    with (Normal (get_property (revive (JsonObj members)) "resources")).
  cbn [cbind]. rewrite Hres. rewrite forEach_null by exact Hall.
  reflexivity.
Qed.

End TemplateValidation.

Section TemplateExamples.
Import ArmTemplate.
Import Builtins.
Import TemplateSamples.

(** Two resources, the second without type and API version. *)
Lemma resource_issues_example :
  exists report,
    execute (parser := sample_parser) "sub-1" None two_resources_text None None
    = Normal report /\
    errors report
    = [{| code := "MissingResourceType";
          message := "Resource at index 1 is missing a type property";
          severity := "error";
          resourceIndex := Some 1;
          parameter := None |}] /\
    warnings report
    = [{| code := "MissingSchema";
          message := "Template does not specify a $schema property";
          severity := "warning";
          resourceIndex := None;
          parameter := None |};
       {| code := "MissingApiVersion";
          message := "Resource at index 1 is missing an apiVersion property";
          severity := "warning";
          resourceIndex := Some 1;
          parameter := None |}] /\
    valid report = false.
Proof.
  destruct (resource_issues_by_index (parser := sample_parser)
              "sub-1" None two_resources_text None None
              [("resources",
                JsonArr [JsonObj [("type", JsonStr "vm"); ("apiVersion", JsonStr "1")];
                         JsonObj []])]
              [obj [("type", JStr "vm"); ("apiVersion", JStr "1")]; obj []])
    as (report & Hrun & Herrors & Hwarnings & Hvalid).
  - reflexivity.
  - reflexivity.
  - repeat constructor.
  - left. reflexivity.
  - exists report. split; [exact Hrun |]. split; [exact Herrors |].
    split; [exact Hwarnings |].
    destruct (valid report); [| reflexivity].
    by destruct Hvalid as [Hnone _]; specialize (Hnone eq_refl).
Defined.

(** One resource with a type. *)
Lemma valid_report_example :
  exists tree elems,
    JSON_parse_text (Parser := sample_parser) typed_text = inl tree /\
    member (revive tree) "resources" = Normal (JArr elems) /\
    Forall (fun r => exists t, member r "type" = Normal t /\ ToBoolean t = true)
      elems.
Proof.
  destruct (valid_report_has_typed_resources (parser := sample_parser)
              "sub-1" None typed_text None None _ eq_refl eq_refl)
    as (tree & elems & Hparse & Hres & Htyped & _).
  by exists tree, elems.
Defined.

(** The second resource is [null]. *)
Lemma null_resource_example :
  execute (parser := sample_parser) "sub-1" None null_resource_text None None
  = Normal
      {| valid := false;
         errors :=
           [{| code := "InvalidJSON";
               message := "Template is not valid JSON: Cannot read properties of null (reading 'type')";
               severity := "error";
               resourceIndex := None;
               parameter := None |}];
         warnings := [];
         properties := None;
         summary := None |}.
Proof.
  apply (null_resource_reported_as_invalid_json (parser := sample_parser)
           "sub-1" None null_resource_text None None
           [("resources", JsonArr [JsonObj []; JsonNull])] [obj []] []).
  - reflexivity.
  - reflexivity.
  - repeat constructor.
Defined.

End TemplateExamples.

(** ** The description of the [code_execution] tool *)

Section Description.
Import Builtins.
Import Enhanced.

#[local] Arguments String.append !_ _ / : simpl nomatch.

Lemma includes_self (s : string) : String_includes s s = true.
Proof. rewrite <- (append_nil_r s) at 2. apply includes_here. Qed.

Lemma includes_concat (sep name : string) (names : list string) :
  In name names -> String_includes name (String.concat sep names) = true.
Proof.
  induction names as [| x names IH]; [contradiction |].
  intros [-> | Hin]; destruct names as [| y names]; cbn [String.concat].
  - apply includes_self.
  - apply includes_here.
  - contradiction.
  - apply includes_app_r, includes_app_r, IH, Hin.
Qed.

Lemma includes_empty (name : string) :
  String_includes name "" = true -> name = "".
Proof. by destruct name. Qed.

Lemma includes_joinOrNone (name : string) (names : list string) :
  In name names -> String_includes name (joinOrNone names) = true.
Proof.
  intros Hin%(includes_concat ", "). unfold joinOrNone.
  destruct (String.eqb_spec (String.concat ", " names) "") as [Hempty |];
    [| exact Hin].
  rewrite Hempty in Hin. by rewrite (includes_empty _ Hin).
Qed.

(** X16. The description of the [code_execution] tool names every tool a
    script can call: the name of every function the constructor put into
    the registry occurs in it, and so does, for any wrapper, every name
    that [getAllToolNames] returns. *)
Theorem description_names_every_tool (tools : list (string * ToolDefinition.t))
    (timeout : N) :
  (forall name f,
      toolRegistry (constructor tools timeout) !! name = Some f ->
      String_includes name (codeExecutionDescription (constructor tools timeout))
      = true) /\
  (forall this name,
      name ∈ getAllToolNames this ->
      String_includes name (codeExecutionDescription this) = true).
Proof.
  assert (Hlocal : forall this name,
             In name (localToolNames this) ->
             String_includes name (codeExecutionDescription this) = true).
  { intros this name Hin. unfold codeExecutionDescription.
    apply includes_app_r, includes_app_l, includes_joinOrNone, Hin. }
  split.
  - intros name f Hf. apply Hlocal. apply list_elem_of_In.
    unfold constructor in *. cbn [toolRegistry localToolNames] in *.
    rewrite fold_register_names. cbn [snd app].
    apply fold_register_sound in Hf as [Hf | (toolDef & Hin & Hexec & Hname)];
      [cbn in Hf; by rewrite lookup_empty in Hf |].
    apply list_elem_of_fmap. exists (name, toolDef). split; [reflexivity |].
    apply list_elem_of_filter. split; [| exact Hin].
    unfold is_local_tool. cbn [fst snd]. by rewrite Hexec, Hname.
  - intros this name [Hin | Hin]%elem_of_app.
    + by apply Hlocal, list_elem_of_In.
    + unfold codeExecutionDescription.
      apply includes_app_r, includes_app_r, includes_app_r, includes_app_l,
        includes_joinOrNone, list_elem_of_In, Hin.
Qed.

End Description.
